(** * Weekly report lifecycle of the check-in bot: a shallow embedding

    The development follows the Python sources module by module:
    - [PyDate]: the part of the standard [datetime] module the bot relies on
      (proleptic ordinals, [weekday], [isocalendar], naive timestamps);
    - [PyStr]: Python [str] values as lists of code points, [str.strip],
      [str(int)] and the [:02d] format;
    - [Json] and [Sqlite]: the two storage backends
      ([data_handler_json.py], [data_handler_sqlite.py]);
    - [DataHandler]: the dispatching wrapper of [data_handler.py];
    - [AIService], [AdminNotifier], [ReportManager], [ReminderManager].

    Conventions.  A date string in [%Y-%m-%d] format is modelled by the
    [date] record it parses to; a naive [datetime] (and its [isoformat]
    rendering, whose lexicographic order is the chronological one) by the
    number of microseconds since 0001-01-01T00:00.  Telegram user ids are
    integers.  Every stateful operation takes the store and the clock reading
    and returns the new store together with the messages it sent. *)

From stdpp Require Import base decidable countable numbers option list gmap.
From Stdlib Require Import ZArith Lia String Ascii DecimalString.

Local Open Scope Z_scope.

(** ** Python strings *)

Module PyStr.

(** A [str] is a sequence of Unicode code points. *)
Abbreviation pystr := (list N).

Definition py (s : string) : pystr :=
  List.map N_of_ascii (list_ascii_of_string s).

(** [str.isspace] on one character: the code points CPython's
    [_PyUnicode_IsWhitespace] accepts. *)
Definition isspace (c : N) : bool :=
  ((9 <=? c) && (c <=? 13) || (28 <=? c) && (c <=? 32) ||
   (c =? 133) || (c =? 160) || (c =? 5760) ||
   (8192 <=? c) && (c <=? 8202) || (c =? 8232) || (c =? 8233) ||
   (c =? 8239) || (c =? 8287) || (c =? 12288))%N.

Fixpoint lstrip (s : pystr) : pystr :=
  match s with
  | c :: s' => if isspace c then lstrip s' else s
  | [] => []
  end.

Definition rstrip (s : pystr) : pystr := rev (lstrip (rev s)).

(** [s.strip()] *)
Definition strip (s : pystr) : pystr := rstrip (lstrip s).

(** [len(s)] *)
Definition len (s : pystr) : Z := Z.of_nat (List.length s).

(** [str(n)] for an [int] *)
Definition str_int (n : Z) : pystr := py (NilZero.string_of_int (Z.to_int n)).

(** [f"{n:02d}"]: zero padding to width two (a sign counts for the width). *)
Definition fmt_02d (n : Z) : pystr :=
  let s := str_int n in
  if len s <? 2 then py "0" ++ s else s.

(** [a <= b] on strings: lexicographic on code points. *)
Fixpoint leb (a b : pystr) : bool :=
  match a, b with
  | [], _ => true
  | _ :: _, [] => false
  | x :: a', y :: b' => (x <? y)%N || ((x =? y)%N && leb a' b')
  end.

End PyStr.
Export PyStr.

(** ** Dates, after CPython's [_pydatetime.py] *)

Module PyDate.

Record date := mkdate { year : Z; month : Z; day : Z }.

#[export] Instance date_eq_dec : EqDecision date.
Proof. solve_decision. Defined.

#[export] Instance date_countable : Countable date.
Proof.
  refine (inj_countable' (fun d => (year d, month d, day d))
                         (fun t => mkdate t.1.1 t.1.2 t.2) _).
  intros []; reflexivity.
Defined.

Definition _DAYS_IN_MONTH : list Z :=
  [-1; 31; 28; 31; 30; 31; 30; 31; 31; 30; 31; 30; 31].

Definition _DAYS_BEFORE_MONTH : list Z :=
  [-1; 0; 31; 59; 90; 120; 151; 181; 212; 243; 273; 304; 334].

Definition index (l : list Z) (i : Z) : Z := nth (Z.to_nat i) l 0.

Definition _is_leap (y : Z) : bool :=
  (y mod 4 =? 0) && (negb (y mod 100 =? 0) || (y mod 400 =? 0)).

Definition _days_before_year (y : Z) : Z :=
  let y := y - 1 in y * 365 + y / 4 - y / 100 + y / 400.

Definition _days_in_month (y m : Z) : Z :=
  if (m =? 2) && _is_leap y then 29 else index _DAYS_IN_MONTH m.

Definition _days_before_month (y m : Z) : Z :=
  index _DAYS_BEFORE_MONTH m + (if (m >? 2) && _is_leap y then 1 else 0).

Definition _ymd2ord (y m d : Z) : Z :=
  _days_before_year y + _days_before_month y m + d.

Definition toordinal (d : date) : Z := _ymd2ord (year d) (month d) (day d).

Definition _DI400Y : Z := Eval cbv in _days_before_year 401.
Definition _DI100Y : Z := Eval cbv in _days_before_year 101.
Definition _DI4Y : Z := Eval cbv in _days_before_year 5.

Definition _ord2ymd (n : Z) : date :=
  let n := n - 1 in
  let n400 := n / _DI400Y in
  let n := n mod _DI400Y in
  let year := n400 * 400 + 1 in
  let n100 := n / _DI100Y in
  let n := n mod _DI100Y in
  let n4 := n / _DI4Y in
  let n := n mod _DI4Y in
  let n1 := n / 365 in
  let n := n mod 365 in
  let year := year + (n100 * 100 + n4 * 4 + n1) in
  if (n1 =? 4) || (n100 =? 4) then mkdate (year - 1) 12 31
  else
    let leapyear := (n1 =? 3) && (negb (n4 =? 24) || (n100 =? 3)) in
    let month := Z.shiftr (n + 50) 5 in
    let preceding :=
      index _DAYS_BEFORE_MONTH month +
      (if (month >? 2) && leapyear then 1 else 0) in
    if preceding >? n then
      let month := month - 1 in
      let preceding :=
        preceding - (index _DAYS_IN_MONTH month +
                     (if (month =? 2) && leapyear then 1 else 0)) in
      mkdate year month (n - preceding + 1)
    else mkdate year month (n - preceding + 1).

(** Dates [strptime(_, "%Y-%m-%d")] accepts. *)
Definition valid_date (d : date) : bool :=
  (1 <=? year d) && (year d <=? 9999) &&
  (1 <=? month d) && (month d <=? 12) &&
  (1 <=? day d) && (day d <=? _days_in_month (year d) (month d)).

(** [d.weekday()]: Monday is 0. *)
Definition weekday (d : date) : Z := (toordinal d + 6) mod 7.

Definition _isoweek1monday (y : Z) : Z :=
  let firstday := _ymd2ord y 1 1 in
  let firstweekday := (firstday + 6) mod 7 in
  let week1monday := firstday - firstweekday in
  if firstweekday >? 3 then week1monday + 7 else week1monday.

(** [d.isocalendar()] as the triple (ISO year, ISO week, ISO weekday). *)
Definition isocalendar (d : date) : Z * Z * Z :=
  let year := year d in
  let week1monday := _isoweek1monday year in
  let today := toordinal d in
  let week := (today - week1monday) / 7 in
  let day := (today - week1monday) mod 7 in
  if week <? 0 then
    let year := year - 1 in
    let week1monday := _isoweek1monday year in
    (year, (today - week1monday) / 7 + 1, (today - week1monday) mod 7 + 1)
  else if (week >=? 52) && (today >=? _isoweek1monday (year + 1)) then
    (year + 1, 1, day + 1)
  else (year, week + 1, day + 1).

Definition iso_year (d : date) : Z := (isocalendar d).1.1.
Definition iso_week (d : date) : Z := (isocalendar d).1.2.

(** [d + timedelta(days=n)] *)
Definition add_days (d : date) (n : Z) : date := _ord2ymd (toordinal d + n).

(** [a <= b] on dates (equivalently on their [%Y-%m-%d] renderings). *)
Definition date_leb (a b : date) : bool := toordinal a <=? toordinal b.
Definition date_ltb (a b : date) : bool := toordinal a <? toordinal b.

(** A naive [datetime]: microseconds since 0001-01-01T00:00:00. *)
Abbreviation datetime := Z (only parsing).

Definition US_PER_DAY : Z := 86400000000.

(** [dt.strftime("%Y-%m-%d")], read back as a date. *)
Definition date_of (dt : datetime) : date := _ord2ymd (dt / US_PER_DAY + 1).

(** [dt + timedelta(days=n)] *)
Definition plus_days (dt : datetime) (n : Z) : datetime := dt + n * US_PER_DAY.

(** [datetime(y, m, d, hh, mm)] *)
Definition at_time (d : date) (hh mm : Z) : datetime :=
  (toordinal d - 1) * US_PER_DAY + (hh * 60 + mm) * 60000000.

End PyDate.
Export PyDate.

(** ** The week key shared by both backends

    [f"{week_date.year}_week_{week_date.isocalendar()[1]:02d}"] in
    [save_weekly_report] and [get_weekly_report] of both backends. *)

Definition week_key (week_start : date) : pystr :=
  str_int (year week_start) ++ py "_week_" ++ fmt_02d (iso_week week_start).


(** ** Records shared by the backends *)

Inductive session_type := morning | evening.

#[export] Instance session_type_eq_dec : EqDecision session_type.
Proof. solve_decision. Defined.

(** A stored check-in session.  The derived fields [time] and [session_id]
    are not read by the report or reminder code and are left out.  [s_date]
    is [None] when the entry has no ["date"]; a date that is present is a
    well-formed ["%Y-%m-%d"] date. *)
Record session := mksession {
  s_user_id : Z;
  s_session_type : session_type;
  s_timestamp : datetime;
  s_date : option date;
  s_responses : list (pystr * pystr)
}.

(** The dictionary [{"morning": ..., "evening": ...}] of [get_today_sessions]. *)
Record today_sessions := mktoday {
  ts_morning : option session;
  ts_evening : option session
}.

Definition ts_get (t : today_sessions) (ty : session_type) : option session :=
  match ty with morning => ts_morning t | evening => ts_evening t end.

Definition ts_set (t : today_sessions) (ty : session_type) (s : session)
  : today_sessions :=
  match ty with
  | morning => mktoday (Some s) (ts_evening t)
  | evening => mktoday (ts_morning t) (Some s)
  end.

(** A report as the callers see it (the dictionary both backends return). *)
Record report := mkreport {
  r_week_start : date;
  r_week_end : date;
  r_generated_at : datetime;
  r_report_content : pystr;
  r_input_data : pystr;
  r_data_days_count : Z;
  r_week_number : Z;
  r_year : Z;
  r_llm_model : option pystr;
  r_generation_attempts : Z
}.

(** One failed generation attempt. *)
Record failure := mkfailure {
  f_timestamp : datetime;
  f_week_start : date;
  f_error : pystr;
  f_model : pystr;
  f_retry_scheduled : option datetime
}.

(** An entry of the list [get_pending_report_retries] returns. *)
Record retry_info := mkretry {
  ri_user_id : Z;
  ri_week_start : date;
  ri_original_error : pystr;
  ri_attempts : Z
}.

Record preferences := mkprefs {
  p_timezone : option pystr;
  p_reminders_enabled : option bool;
  p_morning_reminder_time : option pystr;
  p_evening_reminder_time : option pystr;
  p_morning_enabled : option bool;
  p_evening_enabled : option bool;
  p_onboarding_completed : option bool
}.

(** A pending admin issue as [get_admin_notifications] returns it. *)
Record issue := mkissue {
  i_timestamp : datetime;
  i_type : pystr;
  i_user_id : option Z;
  i_details : pystr
}.

(** The dictionary [get_admin_notifications] returns. *)
Record notifications := mknotifications {
  daily_notifications : list (date * bool);
  pending_issues : list issue
}.

(** Exceptions the model distinguishes. *)
Inductive exn := AttributeError | TypeError | ValueError | KeyError.

Inductive result (A : Type) :=
| Ok (a : A)
| Raise (e : exn).
Arguments Ok {A} a.
Arguments Raise {A} e.

(** [sorted(l, key=...)]: a stable sort, ascending, or descending with
    [reverse=True] (which also keeps equal elements in their order). *)
Section Sorted.
Context {A : Type} (key : A -> Z).

Fixpoint insert_asc (x : A) (l : list A) : list A :=
  match l with
  | [] => [x]
  | y :: l' => if key x <=? key y then x :: l else y :: insert_asc x l'
  end.

Fixpoint insert_desc (x : A) (l : list A) : list A :=
  match l with
  | [] => [x]
  | y :: l' => if key y <=? key x then x :: l else y :: insert_desc x l'
  end.

Definition sorted (reverse : bool) (l : list A) : list A :=
  foldr (if reverse then insert_desc else insert_asc) [] l.
End Sorted.

(** ** The JSON backend, [data_handler_json.py] *)

Module Json.

(** The content of [responses.json].  Dictionaries keyed by [str(user_id)]
    are finite maps over the user id; a missing top-level section reads as
    the empty one, as every [data.get(section, {})] in the source does.  Of
    the [metadata] section only [last_report_generated] is kept (the session
    counters are not read by the report code), and [unique_users] is left
    out. *)
Record data := mkdata {
  responses : list session;
  user_preferences : gmap Z preferences;
  weekly_reports : gmap Z (gmap pystr report);
  failed_reports : gmap Z (list failure);
  last_report_generated : option datetime
}.

Definition save_session (d : data) (now : datetime) (user_id : Z)
           (session_type : session_type) (answers : list (pystr * pystr))
  : data :=
  let session_entry :=
    {| s_user_id := user_id;
       s_session_type := session_type;
       s_timestamp := now;
       s_date := Some (date_of now);
       s_responses := answers |} in
  {| responses := responses d ++ [session_entry];
     user_preferences := user_preferences d;
     weekly_reports := weekly_reports d;
     failed_reports := failed_reports d;
     last_report_generated := last_report_generated d |}.

(** [start_date <= strptime(session["date"]) <= end_date]; the subscript
    raises [KeyError] when the entry has no date. *)
Definition in_week (start_date end_date : date) (s : session) : result bool :=
  match s_date s with
  | Some d => Ok (date_leb start_date d && date_leb d end_date)
  | None => Raise KeyError
  end.

(** The loop of [get_week_sessions]. *)
Fixpoint week_loop (user_id : Z) (start_date end_date : date)
         (l : list session) : result (list session) :=
  match l with
  | [] => Ok []
  | s :: l' =>
      if bool_decide (s_user_id s = user_id) then
        match in_week start_date end_date s with
        | Raise e => Raise e
        | Ok b =>
            match week_loop user_id start_date end_date l' with
            | Raise e => Raise e
            | Ok r => Ok (if b then s :: r else r)
            end
        end
      else week_loop user_id start_date end_date l'
  end.

Definition get_week_sessions (d : data) (user_id : Z) (week_start_date : date)
  : list session :=
  let start_date := week_start_date in
  let end_date := add_days start_date 6 in
  match week_loop user_id start_date end_date (responses d) with
  | Ok week_sessions => sorted s_timestamp false week_sessions
  | Raise _ => []
  end.

Definition save_weekly_report (d : data) (now : datetime) (user_id : Z)
           (week_start : date) (report_content input_data : pystr)
           (data_days_count : Z) (llm_model : option pystr) : data :=
  let user_reports := default ∅ (weekly_reports d !! user_id) in
  let week_date := week_start in
  let week_end := add_days week_date 6 in
  let report_entry :=
    {| r_week_start := week_start;
       r_week_end := week_end;
       r_generated_at := now;
       r_report_content := report_content;
       r_input_data := input_data;
       r_data_days_count := data_days_count;
       r_week_number := iso_week week_date;
       r_year := year week_date;
       r_llm_model := llm_model;
       r_generation_attempts := 1 |} in
  {| responses := responses d;
     user_preferences := user_preferences d;
     weekly_reports :=
       <[user_id := <[week_key week_start := report_entry]> user_reports]>
         (weekly_reports d);
     failed_reports := failed_reports d;
     last_report_generated := Some now |}.

Definition get_weekly_report (d : data) (user_id : Z) (week_start : date)
  : option report :=
  let user_reports := default ∅ (weekly_reports d !! user_id) in
  user_reports !! week_key week_start.

(** Reports of a user, newest week first (each with its key). *)
Definition get_user_weekly_reports (d : data) (user_id : Z)
  : list (pystr * report) :=
  let user_reports := default ∅ (weekly_reports d !! user_id) in
  sorted (fun kr => toordinal (r_week_start kr.2)) true
         (map_to_list user_reports).

Definition get_previous_reports_for_context (d : data) (user_id : Z)
           (current_week_start : date) (count : nat) : list pystr :=
  let all_reports := get_user_weekly_reports d user_id in
  let previous_reports :=
    List.map (fun kr => r_report_content kr.2)
      (List.filter (fun kr => date_ltb (r_week_start kr.2) current_week_start)
                   all_reports) in
  take count previous_reports.

Definition save_failed_report_attempt (d : data) (now : datetime)
           (user_id : Z) (week_start : date) (error_message llm_model : pystr)
           (retry_scheduled : option datetime) : data :=
  let failure_entry :=
    {| f_timestamp := now;
       f_week_start := week_start;
       f_error := error_message;
       f_model := llm_model;
       f_retry_scheduled := retry_scheduled |} in
  {| responses := responses d;
     user_preferences := user_preferences d;
     weekly_reports := weekly_reports d;
     failed_reports :=
       <[user_id := default [] (failed_reports d !! user_id) ++ [failure_entry]]>
         (failed_reports d);
     last_report_generated := last_report_generated d |}.

(** The body of the inner loop of [get_pending_report_retries]: what one
    record of a user's failure list appends. *)
Definition pending_entry (now : datetime) (user_id : Z)
           (failures : list failure) (failure : failure) : list retry_info :=
  match f_retry_scheduled failure with
  | Some retry_time =>
      if retry_time <=? now then
        [ {| ri_user_id := user_id;
             ri_week_start := f_week_start failure;
             ri_original_error := f_error failure;
             ri_attempts :=
               Z.of_nat (List.length
                 (List.filter
                    (fun f => bool_decide
                                (f_week_start f = f_week_start failure))
                    failures)) |} ]
      else []
  | None => []
  end.

(** The entries one user's failure list contributes: one per due record. *)
Definition pending_of (now : datetime) (user_id : Z) (failures : list failure)
  : list retry_info :=
  flat_map (pending_entry now user_id failures) failures.

(** The iteration order over the users of [failed_reports] is the map's. *)
Definition get_pending_report_retries (d : data) (now : datetime)
  : list retry_info :=
  flat_map (fun uf => pending_of now uf.1 uf.2) (map_to_list (failed_reports d)).

Definition clear_failed_report_attempts (d : data) (user_id : Z)
           (week_start : date) : data :=
  match failed_reports d !! user_id with
  | Some failures =>
      let kept :=
        List.filter (fun failure => negb (bool_decide (f_week_start failure = week_start)))
                    failures in
      {| responses := responses d;
         user_preferences := user_preferences d;
         weekly_reports := weekly_reports d;
         failed_reports :=
           match kept with
           | [] => delete user_id (failed_reports d)
           | _ :: _ => <[user_id := kept]> (failed_reports d)
           end;
         last_report_generated := last_report_generated d |}
  | None => d
  end.

(** The loop of [get_today_sessions]:
    [if session["user_id"] == user_id and session["date"] == today].  The
    date is looked up only for the user's own entries, and the subscript
    raises [KeyError] when such an entry has none. *)
Fixpoint today_loop (user_id : Z) (today : date) (l : list session)
         (found : today_sessions) : result today_sessions :=
  match l with
  | [] => Ok found
  | s :: l' =>
      if bool_decide (s_user_id s = user_id) then
        match s_date s with
        | None => Raise KeyError
        | Some d =>
            today_loop user_id today l'
              (if bool_decide (d = today)
               then ts_set found (s_session_type s) s
               else found)
        end
      else today_loop user_id today l' found
  end.

(** [get_today_sessions(user_id, None)]: today in the server's local time.
    The [except] clause answers any exception of the loop with
    [{"morning": None, "evening": None}]. *)
Definition get_today_sessions (d : data) (now : datetime) (user_id : Z)
  : today_sessions :=
  let today := date_of now in
  match today_loop user_id today (responses d) (mktoday None None) with
  | Ok found => found
  | Raise _ => mktoday None None
  end.

Definition get_user_preferences (d : data) (user_id : Z) : option preferences :=
  user_preferences d !! user_id.

End Json.

(** ** The SQLite backend, [data_handler_sqlite.py] *)

Module Sqlite.

Record report_row := mkreport_row {
  rr_user_id : Z;
  rr_week_key : pystr;
  rr_report : report
}.

Record failed_row := mkfailed_row {
  fr_user_id : Z;
  fr_week_start : date;
  fr_error_message : pystr;
  fr_model : pystr;
  fr_retry_scheduled : option datetime;
  fr_created_at : datetime
}.

(** A row of [admin_notifications]; the [data_json] column is written but
    never read by the notifier and is left out. *)
Record admin_row := mkadmin_row {
  an_notification_type : pystr;
  an_user_id : option Z;
  an_message : pystr;
  an_created_at : datetime
}.

(** The tables of the database, each in insertion order. *)
Record db := mkdb {
  sessions : list session;
  user_preferences : gmap Z preferences;
  weekly_reports : list report_row;
  failed_reports : list failed_row;
  admin_notifications : list admin_row
}.

Definition set_weekly_reports (d : db) (t : list report_row) : db :=
  mkdb (sessions d) (user_preferences d) t (failed_reports d)
       (admin_notifications d).
Definition set_failed_reports (d : db) (t : list failed_row) : db :=
  mkdb (sessions d) (user_preferences d) (weekly_reports d) t
       (admin_notifications d).
Definition set_admin_notifications (d : db) (t : list admin_row) : db :=
  mkdb (sessions d) (user_preferences d) (weekly_reports d)
       (failed_reports d) t.

Definition save_session (d : db) (now : datetime) (user_id : Z)
           (session_type : session_type) (answers : list (pystr * pystr))
  : db :=
  mkdb (sessions d ++
        [ {| s_user_id := user_id;
             s_session_type := session_type;
             s_timestamp := now;
             s_date := Some (date_of now);
             s_responses := answers |} ])
       (user_preferences d) (weekly_reports d) (failed_reports d)
       (admin_notifications d).

(** [WHERE user_id = ? AND date >= ? AND date <= ? ORDER BY timestamp];
    a NULL date satisfies no comparison. *)
Definition get_week_sessions (d : db) (user_id : Z) (week_start_date : date)
  : list session :=
  let week_start := week_start_date in
  let week_end := add_days week_start 6 in
  sorted s_timestamp false
    (List.filter
       (fun s =>
          bool_decide (s_user_id s = user_id) &&
          match s_date s with
          | Some dt => date_leb week_start_date dt && date_leb dt week_end
          | None => false
          end)
       (sessions d)).

Definition same_report_key (user_id : Z) (key : pystr) (r : report_row) : bool :=
  bool_decide (rr_user_id r = user_id) && bool_decide (rr_week_key r = key).

(** Modelled from the spec: [database/schema.sql] is not among the sources.
    The Report Store is keyed by (user, week_key), so [weekly_reports] is
    taken to declare that pair unique, which makes [INSERT OR REPLACE]
    delete the conflicting row before inserting; [generated_at], absent
    from the statement, takes the insertion time. *)
Definition insert_or_replace_report (t : list report_row) (row : report_row)
  : list report_row :=
  List.filter
    (fun r => negb (same_report_key (rr_user_id row) (rr_week_key row) r)) t
  ++ [row].

Definition save_weekly_report (d : db) (now : datetime) (user_id : Z)
           (week_start : date) (report_content input_data : pystr)
           (data_days_count : Z) (llm_model : option pystr) : db :=
  let week_date := week_start in
  let week_end := add_days week_date 6 in
  let week_key := week_key week_start in
  set_weekly_reports d
    (insert_or_replace_report (weekly_reports d)
       {| rr_user_id := user_id;
          rr_week_key := week_key;
          rr_report :=
            {| r_week_start := week_start;
               r_week_end := week_end;
               r_generated_at := now;
               r_report_content := report_content;
               r_input_data := input_data;
               r_data_days_count := data_days_count;
               r_week_number := iso_week week_date;
               r_year := year week_date;
               r_llm_model := llm_model;
               r_generation_attempts := 1 |} |}).

(** [SELECT * ... WHERE user_id = ? AND week_key = ?], then [fetchone]. *)
Definition get_weekly_report (d : db) (user_id : Z) (week_start : date)
  : option report :=
  let week_key := week_key week_start in
  match List.find (same_report_key user_id week_key) (weekly_reports d) with
  | Some row => Some (rr_report row)
  | None => None
  end.

Definition get_user_weekly_reports (d : db) (user_id : Z)
  : list (pystr * report) :=
  List.map (fun r => (rr_week_key r, rr_report r))
    (sorted (fun r => toordinal (r_week_start (rr_report r))) true
       (List.filter (fun r => bool_decide (rr_user_id r = user_id))
                    (weekly_reports d))).

Definition get_previous_reports_for_context (d : db) (user_id : Z)
           (current_week_start : date) (count : nat) : list pystr :=
  take count
    (List.map (fun r => r_report_content (rr_report r))
       (sorted (fun r => toordinal (r_week_start (rr_report r))) true
          (List.filter
             (fun r => bool_decide (rr_user_id r = user_id) &&
                       date_ltb (r_week_start (rr_report r)) current_week_start)
             (weekly_reports d)))).

(** [created_at] is not in the statement and takes the insertion time. *)
Definition save_failed_report_attempt (d : db) (now : datetime)
           (user_id : Z) (week_start : date) (error_message llm_model : pystr)
           (retry_scheduled : option datetime) : db :=
  set_failed_reports d
    (failed_reports d ++
     [ {| fr_user_id := user_id;
          fr_week_start := week_start;
          fr_error_message := error_message;
          fr_model := llm_model;
          fr_retry_scheduled := retry_scheduled;
          fr_created_at := now |} ]).

(** [WHERE retry_scheduled IS NOT NULL AND retry_scheduled <= ?] *)
Definition is_due (now : datetime) (r : failed_row) : bool :=
  match fr_retry_scheduled r with
  | Some t => t <=? now
  | None => false
  end.

Definition in_group (k : Z * date) (r : failed_row) : bool :=
  bool_decide (fr_user_id r = k.1) && bool_decide (fr_week_start r = k.2).

(** [MAX(error_message)] over a group of rows. *)
Definition max_error (rows : list failed_row) : pystr :=
  foldr (fun r acc => if PyStr.leb acc (fr_error_message r)
                      then fr_error_message r else acc) [] rows.

(** [SELECT DISTINCT user_id, week_start, MAX(error_message), COUNT( * )
     FROM failed_reports WHERE ... GROUP BY user_id, week_start]:
    the rows that pass the WHERE clause are grouped, one result row per
    group (the order of the result rows is not fixed by SQL). *)
Definition get_pending_report_retries (d : db) (now : datetime)
  : list retry_info :=
  let due := List.filter (is_due now) (failed_reports d) in
  let groups :=
    remove_dups (List.map (fun r => (fr_user_id r, fr_week_start r)) due) in
  List.map
    (fun k =>
       let rows := List.filter (in_group k) due in
       {| ri_user_id := k.1;
          ri_week_start := k.2;
          ri_original_error := max_error rows;
          ri_attempts := Z.of_nat (List.length rows) |})
    groups.

(** [DELETE FROM failed_reports WHERE user_id = ? AND week_start = ?] *)
Definition clear_failed_report_attempts (d : db) (user_id : Z)
           (week_start : date) : db :=
  set_failed_reports d
    (List.filter (fun r => negb (in_group (user_id, week_start) r))
                 (failed_reports d)).

(** [get_today_sessions(user_id)]: the method takes no timezone. *)
Definition get_today_sessions (d : db) (now : datetime) (user_id : Z)
  : today_sessions :=
  let today := date_of now in
  fold_left
    (fun acc s => ts_set acc (s_session_type s) s)
    (List.filter
       (fun s => bool_decide (s_user_id s = user_id) &&
                 bool_decide (s_date s = Some today))
       (sessions d))
    (mktoday None None).

Definition get_user_preferences (d : db) (user_id : Z) : option preferences :=
  user_preferences d !! user_id.

Definition daily_summary : pystr := py "daily_summary".

Definition is_summary (r : admin_row) : bool :=
  bool_decide (an_notification_type r = daily_summary).

(** Modelled from the spec: [database/schema.sql] is not among the sources.
    The flush is recorded for "today", so the [created_at] column of
    [admin_notifications] is taken to default to the insertion time on the
    clock [datetime.now()] reads, and SQLite's ['now'] to be that clock. *)
Definition admin_row_at (now : datetime) (ty : pystr) (user_id : option Z)
           (message : pystr) : admin_row :=
  {| an_notification_type := ty;
     an_user_id := user_id;
     an_message := message;
     an_created_at := now |}.

Definition get_admin_notifications (d : db) (now : datetime) : notifications :=
  let today := date_of now in
  let today_sent :=
    existsb (fun r => bool_decide (date_of (an_created_at r) = today) &&
                      is_summary r)
            (admin_notifications d) in
  let pending :=
    sorted an_created_at true
      (List.filter
         (fun r => negb (is_summary r) &&
                   date_leb (add_days (date_of now) (-1))
                            (date_of (an_created_at r)))
         (admin_notifications d)) in
  {| daily_notifications := [(today, today_sent)];
     pending_issues :=
       List.map (fun r => {| i_timestamp := an_created_at r;
                             i_type := an_notification_type r;
                             i_user_id := an_user_id r;
                             i_details := an_message r |}) pending |}.

Definition add_admin_notification (d : db) (now : datetime)
           (notification_type : pystr) (user_id : Z) (message : pystr) : db :=
  set_admin_notifications d
    (admin_notifications d ++
     [admin_row_at now notification_type (Some user_id) message]).

Definition mark_admin_notified_today (d : db) (now : datetime)
           (issues_count : Z) : db :=
  let inserted :=
    admin_notifications d ++
    [admin_row_at now daily_summary None
       (py "Daily summary sent with " ++ str_int issues_count ++ py " issues")] in
  set_admin_notifications d
    (List.filter
       (fun r => negb (negb (is_summary r) &&
                       date_ltb (date_of (an_created_at r))
                                (add_days (date_of now) (-1))))
       inserted).

Definition clear_pending_admin_issues (d : db) : db :=
  set_admin_notifications d
    (List.filter (fun r => negb (negb (is_summary r))) (admin_notifications d)).

End Sqlite.

(** ** The dispatching wrapper, [data_handler.py] *)

Module DataHandler.

(** [self.backend] is one of the two handlers.  The fallback backend is
    only consulted by [__getattr__], that is for the methods the wrapper
    does not define itself (the admin notification ones), and only when it
    has the method, which the JSON handler never does. *)
Inductive t :=
| JsonBackend (d : Json.data)
| SqliteBackend (d : Sqlite.db).

Definition save_session (h : t) (now : datetime) (user_id : Z)
           (session_type : session_type) (answers : list (pystr * pystr)) : t :=
  match h with
  | JsonBackend d =>
      JsonBackend (Json.save_session d now user_id session_type answers)
  | SqliteBackend d =>
      SqliteBackend (Sqlite.save_session d now user_id session_type answers)
  end.

Definition get_week_sessions (h : t) (user_id : Z) (week_start : date)
  : list session :=
  match h with
  | JsonBackend d => Json.get_week_sessions d user_id week_start
  | SqliteBackend d => Sqlite.get_week_sessions d user_id week_start
  end.

Definition save_weekly_report (h : t) (now : datetime) (user_id : Z)
           (week_start : date) (report_content input_data : pystr)
           (data_days_count : Z) (llm_model : option pystr) : t :=
  match h with
  | JsonBackend d =>
      JsonBackend (Json.save_weekly_report d now user_id week_start
                     report_content input_data data_days_count llm_model)
  | SqliteBackend d =>
      SqliteBackend (Sqlite.save_weekly_report d now user_id week_start
                       report_content input_data data_days_count llm_model)
  end.

Definition get_weekly_report (h : t) (user_id : Z) (week_start : date)
  : option report :=
  match h with
  | JsonBackend d => Json.get_weekly_report d user_id week_start
  | SqliteBackend d => Sqlite.get_weekly_report d user_id week_start
  end.

Definition get_user_weekly_reports (h : t) (user_id : Z)
  : list (pystr * report) :=
  match h with
  | JsonBackend d => Json.get_user_weekly_reports d user_id
  | SqliteBackend d => Sqlite.get_user_weekly_reports d user_id
  end.

Definition get_previous_reports_for_context (h : t) (user_id : Z)
           (current_week_start : date) : list pystr :=
  match h with
  | JsonBackend d =>
      Json.get_previous_reports_for_context d user_id current_week_start 3
  | SqliteBackend d =>
      Sqlite.get_previous_reports_for_context d user_id current_week_start 3
  end.

Definition save_failed_report_attempt (h : t) (now : datetime) (user_id : Z)
           (week_start : date) (error_message llm_model : pystr)
           (retry_scheduled : option datetime) : t :=
  match h with
  | JsonBackend d =>
      JsonBackend (Json.save_failed_report_attempt d now user_id week_start
                     error_message llm_model retry_scheduled)
  | SqliteBackend d =>
      SqliteBackend (Sqlite.save_failed_report_attempt d now user_id week_start
                       error_message llm_model retry_scheduled)
  end.

Definition get_pending_report_retries (h : t) (now : datetime)
  : list retry_info :=
  match h with
  | JsonBackend d => Json.get_pending_report_retries d now
  | SqliteBackend d => Sqlite.get_pending_report_retries d now
  end.

Definition clear_failed_report_attempts (h : t) (user_id : Z)
           (week_start : date) : t :=
  match h with
  | JsonBackend d =>
      JsonBackend (Json.clear_failed_report_attempts d user_id week_start)
  | SqliteBackend d =>
      SqliteBackend (Sqlite.clear_failed_report_attempts d user_id week_start)
  end.

(** The wrapper always passes [user_timezone] on; the SQLite method does
    not take it, so the call raises [TypeError] on that backend. *)
Definition get_today_sessions (h : t) (now : datetime) (user_id : Z)
  : result today_sessions :=
  match h with
  | JsonBackend d => Ok (Json.get_today_sessions d now user_id)
  | SqliteBackend _ => Raise TypeError
  end.

Definition get_user_preferences (h : t) (user_id : Z) : option preferences :=
  match h with
  | JsonBackend d => Json.get_user_preferences d user_id
  | SqliteBackend d => Sqlite.get_user_preferences d user_id
  end.

(** The admin notification methods exist on the SQLite handler only;
    [__getattr__] raises [AttributeError] on the JSON one. *)
Definition get_admin_notifications (h : t) (now : datetime)
  : result notifications :=
  match h with
  | JsonBackend _ => Raise AttributeError
  | SqliteBackend d => Ok (Sqlite.get_admin_notifications d now)
  end.

Definition add_admin_notification (h : t) (now : datetime)
           (notification_type : pystr) (user_id : Z) (message : pystr)
  : result t :=
  match h with
  | JsonBackend _ => Raise AttributeError
  | SqliteBackend d =>
      Ok (SqliteBackend
            (Sqlite.add_admin_notification d now notification_type user_id message))
  end.

Definition mark_admin_notified_today (h : t) (now : datetime)
           (issues_count : Z) : result t :=
  match h with
  | JsonBackend _ => Raise AttributeError
  | SqliteBackend d =>
      Ok (SqliteBackend (Sqlite.mark_admin_notified_today d now issues_count))
  end.

Definition clear_pending_admin_issues (h : t) : result t :=
  match h with
  | JsonBackend _ => Raise AttributeError
  | SqliteBackend d => Ok (SqliteBackend (Sqlite.clear_pending_admin_issues d))
  end.

End DataHandler.

(** ** The narrative generator, [ai_service.py] *)

Module AIService.

(** What [client.chat.completions.create] does on a request: it returns a
    completion whose message content may be [None], or raises. *)
Inductive api_outcome :=
| Completion (content : option pystr)
| APITimeoutError (msg : pystr)
| APIError (msg : pystr)
| OtherException (msg : pystr).

Record t := mkservice {
  model : pystr;
  (** content of the system prompt file, [None] when it cannot be read *)
  system_prompt_file : option pystr;
  (** the remote service, on (system prompt, user prompt) *)
  create : pystr -> pystr -> api_outcome
}.

Record metadata := mkmeta {
  model_used : pystr;
  error_type : option pystr;
  report_length : option Z
}.

Definition nl : pystr := [10%N].

(** [sep.join(parts)] *)
Fixpoint join (sep : pystr) (parts : list pystr) : pystr :=
  match parts with
  | [] => []
  | [x] => x
  | x :: rest => x ++ sep ++ join sep rest
  end.

(** [responses.get(k, "N/A")] *)
Fixpoint get_or_na (responses : list (pystr * pystr)) (k : pystr) : pystr :=
  match responses with
  | [] => py "N/A"
  | (k', v) :: rest => if bool_decide (k' = k) then v else get_or_na rest k
  end.

Definition fmt_date (d : date) : pystr :=
  let y := str_int (year d) in
  replicate (4 - List.length y) 48%N ++ y ++ py "-" ++ fmt_02d (month d)
    ++ py "-" ++ fmt_02d (day d).

(** [dt.strftime("%H:%M")] *)
Definition fmt_hm (dt : datetime) : pystr :=
  let us := dt mod US_PER_DAY in
  fmt_02d (us / 3600000000) ++ py ":" ++ fmt_02d (us / 60000000 mod 60).

Definition date_key (o : option date) : Z :=
  match o with Some d => toordinal d | None => 0 end.

(** [sessions_by_date[date][session_type] = session] *)
Fixpoint by_date_set (m : list (option date * today_sessions))
         (s : session) : list (option date * today_sessions) :=
  match m with
  | [] => [(s_date s, ts_set (mktoday None None) (s_session_type s) s)]
  | (d, t) :: m' =>
      if bool_decide (d = s_date s) then (d, ts_set t (s_session_type s) s) :: m'
      else (d, t) :: by_date_set m' s
  end.

Definition startswith_word_ (s : pystr) : bool :=
  bool_decide (take 5 s = py "word_").

(** A stored timestamp is a valid [isoformat] string, so the ["unknown"]
    fallback of the time is never taken. *)
Definition morning_line (s : session) : pystr :=
  let responses := s_responses s in
  py "Morning data, registered at " ++ fmt_hm (s_timestamp s) ++
  py " : energy level=" ++ get_or_na responses (py "energy_level") ++
  py ", mood=" ++ get_or_na responses (py "mood") ++
  py ", intention word for the day=" ++ [34%N] ++
  get_or_na responses (py "intention") ++ [34%N].

Definition evening_line (s : session) : pystr :=
  let responses := s_responses s in
  let day_word := get_or_na responses (py "day_word") in
  let day_word :=
    if bool_decide (day_word = py "N/A") then
      let day_value := get_or_na responses (py "day") in
      if negb (bool_decide (day_value = py "N/A")) && startswith_word_ day_value
      then drop 5 day_value else day_word
    else day_word in
  py "Evening data, registered at " ++ fmt_hm (s_timestamp s) ++
  py ": mood=" ++ get_or_na responses (py "mood") ++
  py ", stress=" ++ get_or_na responses (py "stress_level") ++
  py ", word that describes this day best=" ++ [34%N] ++ day_word ++ [34%N] ++
  py ", one sentence describing what had the most impact on your mood today="
  ++ [34%N] ++ get_or_na responses (py "reflection") ++ [34%N].

Definition format_session_data (sessions : list session) : pystr :=
  match sessions with
  | [] => py "No data available for this period."
  | _ =>
      let sessions_by_date := fold_left by_date_set sessions [] in
      let formatted_lines :=
        flat_map
          (fun dt =>
             [nl ++ py "*Data for* " ++
                match dt.1 with Some d => fmt_date d | None => [] end]
             ++ match ts_morning dt.2 with
                | Some m => [morning_line m] | None => [] end
             ++ match ts_evening dt.2 with
                | Some e => [evening_line e] | None => [] end)
          (sorted (fun dt => date_key dt.1) false sessions_by_date) in
      join nl formatted_lines
  end.

Definition load_system_prompt (svc : t) : pystr :=
  match system_prompt_file svc with
  | Some content => strip content
  | None =>
      py "You are a licensed-therapist-style analytic coach reviewing mood tracking data."
  end.

(** The loop over [enumerate(previous_reports[:3], 1)]. *)
Fixpoint context_parts (i : Z) (reports : list pystr) : list pystr :=
  match reports with
  | [] => []
  | report :: rest =>
      (match report with
       | [] => []
       | _ :: _ =>
           let weeks_ago :=
             if i =? 1 then py "previous" else str_int i ++ py " weeks before" in
           [nl ++ py "*Generated report for the " ++ weeks_ago ++ py " week*:";
            report]
       end) ++ context_parts (i + 1) rest
  end.

Definition build_prompt_with_context (current_week_data : pystr)
           (previous_reports : list pystr) : pystr :=
  let prompt_parts :=
    [py "*Current week data:*"; current_week_data]
    ++ context_parts 1 (take 3 previous_reports) in
  join nl prompt_parts.

(** [not report_content or len(report_content.strip()) < 50] *)
Definition too_short (report_content : option pystr) : bool :=
  match report_content with
  | None => true
  | Some [] => true
  | Some c => len (strip c) <? 50
  end.

Definition generate_report (svc : t) (current_week_data : pystr)
           (previous_reports : list pystr) : bool * pystr * metadata :=
  let system_prompt := load_system_prompt svc in
  let user_prompt := build_prompt_with_context current_week_data previous_reports in
  match create svc system_prompt user_prompt with
  | Completion report_content =>
      if too_short report_content then
        (false, py "Generated report was too short or empty.",
         mkmeta (model svc) (Some (py "insufficient_content")) None)
      else
        let c := default [] report_content in
        (true, strip c, mkmeta (model svc) None (Some (len c)))
  | APITimeoutError e =>
      (false, py "LLM request timeout: " ++ e,
       mkmeta (model svc) (Some (py "timeout")) None)
  | APIError e =>
      (false, py "LLM API error: " ++ e,
       mkmeta (model svc) (Some (py "api_error")) None)
  | OtherException e =>
      (false, py "Failed to generate AI report: " ++ e,
       mkmeta (model svc) (Some (py "unknown")) None)
  end.

(** The loop that collects the distinct dates of the sessions. *)
Definition unique_dates (sessions : list session) : gset date :=
  fold_left
    (fun acc session =>
       match s_date session with
       | Some d => acc ∪ {[d]}
       | None => acc
       end)
    sessions ∅.

Definition validate_data_sufficiency (sessions : list session)
  : bool * Z * pystr :=
  match sessions with
  | [] => (false, 0, py "No data available for the past week.")
  | _ :: _ =>
      let days_count := Z.of_nat (size (unique_dates sessions)) in
      if days_count <? 3 then
        (false, days_count,
         py "Insufficient data: only " ++ str_int days_count ++ py " day" ++
         (if days_count =? 1 then [] else py "s") ++
         py " with entries. Need at least 3 days.")
      else
        (true, days_count,
         py "Sufficient data: " ++ str_int days_count ++ py " days with entries.")
  end.

End AIService.

(** ** Outbound messages and the trace of an operation *)

(** One block of the daily error report: an issue type, the number of its
    occurrences, the (at most three) issues shown, and the overflow count. *)
Record report_section := mksection {
  sec_type : pystr;
  sec_count : Z;
  sec_shown : list issue;
  sec_more : option Z
}.

(** The texts the bot sends, by template and arguments. *)
Inductive message :=
| ReportIssueNotice (week_start : date) (retry_date : datetime)
    (** "Report Generation Issue ... Automatic Retry Scheduled" *)
| RetrySuccessNotice (week_start : date)
    (** "Report Successfully Generated!" *)
| MaxRetriesNotice (week_start : date)
    (** "Report Generation Failed ... after multiple attempts" *)
| DailyErrorReport (generated : datetime) (total : Z)
    (sections : list report_section).
    (** "Daily Error Report" *)

(** The Telegram application: [send_message] returns ([true]) or raises. *)
Record Bot := mkbot { send_message : Z -> message -> bool }.

Inductive event :=
| Sent (chat_id : Z) (m : message)
    (** [send_message] returned *)
| SendFailed (chat_id : Z) (m : message)
    (** [send_message] raised and the caller logged the error *)
| Generate (user_id : Z) (week_start : date) (is_retry : bool)
    (** entry into [generate_weekly_report] *)
| Reminder (user_id : Z) (reminder_type : session_type)
    (show_morning show_evening : bool)
    (** [reminder_callback] awaited with the reminder text and keyboard *)
| LogError (site : string).
    (** [logger.error] in the [except] clause of the named method *)

(** ** The admin escalation queue, [admin_notifier.py] *)

Module AdminNotifier.

Record t := mknotifier { admin_user_id : Z }.

(** [d.get(k)] on a dictionary given as an association list *)
Fixpoint dict_get {V : Type} (d : list (date * V)) (k : date) : option V :=
  match d with
  | [] => None
  | (k', v) :: d' => if bool_decide (k' = k) then Some v else dict_get d' k
  end.

Definition should_notify_admin_today (h : DataHandler.t) (now : datetime)
  : bool :=
  match DataHandler.get_admin_notifications h now with
  | Ok notifications =>
      let today := date_of now in
      negb (default false (dict_get (daily_notifications notifications) today))
  | Raise _ => false
  end.

Definition add_issue_for_notification (h : DataHandler.t) (now : datetime)
           (issue_type : pystr) (user_id : Z) (details : pystr)
  : DataHandler.t :=
  match DataHandler.add_admin_notification h now issue_type user_id details with
  | Ok h' => h'
  | Raise _ => h
  end.

(** [issues_by_type[issue_type].append(issue)], types in first-seen order *)
Fixpoint group_add (groups : list (pystr * list issue)) (i : issue)
  : list (pystr * list issue) :=
  match groups with
  | [] => [(i_type i, [i])]
  | (ty, l) :: groups' =>
      if bool_decide (ty = i_type i) then (ty, l ++ [i]) :: groups'
      else (ty, l) :: group_add groups' i
  end.

(** [len(l)] *)
Definition count {A : Type} (l : list A) : Z := Z.of_nat (List.length l).

Definition summary_sections (pending_issues : list issue)
  : list report_section :=
  List.map
    (fun g =>
       let issues := g.2 in
       {| sec_type := g.1;
          sec_count := count issues;
          sec_shown := take 3 issues;
          sec_more := if count issues >? 3
                      then Some (count issues - 3) else None |})
    (fold_left group_add pending_issues []).

Definition send_daily_admin_summary (a : t) (h : DataHandler.t)
           (now : datetime) (bot_application : Bot)
  : bool * DataHandler.t * list event :=
  if negb (should_notify_admin_today h now) then (false, h, [])
  else
    match DataHandler.get_admin_notifications h now with
    | Raise _ => (false, h, [LogError "send_daily_admin_summary"])
    | Ok notifications =>
        let pending_issues := pending_issues notifications in
        match pending_issues with
        | [] => (false, h, [])
        | _ :: _ =>
            let message :=
              DailyErrorReport now (count pending_issues)
                               (summary_sections pending_issues) in
            if send_message bot_application (admin_user_id a) message then
              match DataHandler.mark_admin_notified_today
                      h now (count pending_issues) with
              | Raise _ =>
                  (false, h, [Sent (admin_user_id a) message;
                              LogError "send_daily_admin_summary"])
              | Ok h1 =>
                  match DataHandler.clear_pending_admin_issues h1 with
                  | Raise _ =>
                      (false, h1, [Sent (admin_user_id a) message;
                                   LogError "send_daily_admin_summary"])
                  | Ok h2 => (true, h2, [Sent (admin_user_id a) message])
                  end
              end
            else
              (false, h, [SendFailed (admin_user_id a) message])
        end
    end.

(** [get_notification_status()["pending_issues_count"]] *)
Definition pending_issues_count (h : DataHandler.t) (now : datetime) : Z :=
  match DataHandler.get_admin_notifications h now with
  | Ok notifications => count (pending_issues notifications)
  | Raise _ => 0
  end.

Definition notify_llm_failure (a : t) (h : DataHandler.t) (now : datetime)
           (user_id : Z) (error_message model_name : pystr)
           (bot_application : Bot) : DataHandler.t * list event :=
  let details := py "Model: " ++ model_name ++ py ", Error: " ++ error_message in
  let h1 := add_issue_for_notification h now (py "llm_failure") user_id details in
  if should_notify_admin_today h1 now then
    if pending_issues_count h1 now >=? 5 then
      let '(_, h2, events) := send_daily_admin_summary a h1 now bot_application in
      (h2, events)
    else (h1, [])
  else (h1, []).

(** *** The coroutines, split at their suspension point

    [send_daily_admin_summary] is a coroutine.  It runs without interruption
    up to [await bot_application.bot.send_message(...)]; there the event
    loop may run other tasks; and it runs without interruption again once
    the send has returned or raised.  The definition above is the run in
    which no other task touches the store in between. *)

(** How far a call gets before it first stops: it returns, or it is
    suspended in [send_message] holding the message it built and
    [len(pending_issues)]. *)
Inductive started :=
| Returned (result : bool) (events : list event)
| Awaiting (message : message) (issues : Z).

(** [send_daily_admin_summary] up to the [await]. *)
Definition send_daily_admin_summary_begin (a : t) (h : DataHandler.t)
           (now : datetime) : started :=
  if negb (should_notify_admin_today h now) then Returned false []
  else
    match DataHandler.get_admin_notifications h now with
    | Raise _ => Returned false [LogError "send_daily_admin_summary"]
    | Ok notifications =>
        let pending_issues := pending_issues notifications in
        match pending_issues with
        | [] => Returned false []
        | _ :: _ =>
            Awaiting (DailyErrorReport now (count pending_issues)
                                       (summary_sections pending_issues))
                     (count pending_issues)
        end
    end.

(** [send_daily_admin_summary] from the [await] on, on the store and at the
    time at which the send completes. *)
Definition send_daily_admin_summary_resume (a : t) (h : DataHandler.t)
           (now : datetime) (bot_application : Bot) (message : message)
           (issues : Z) : bool * DataHandler.t * list event :=
  if send_message bot_application (admin_user_id a) message then
    match DataHandler.mark_admin_notified_today h now issues with
    | Raise _ =>
        (false, h, [Sent (admin_user_id a) message;
                    LogError "send_daily_admin_summary"])
    | Ok h1 =>
        match DataHandler.clear_pending_admin_issues h1 with
        | Raise _ =>
            (false, h1, [Sent (admin_user_id a) message;
                         LogError "send_daily_admin_summary"])
        | Ok h2 => (true, h2, [Sent (admin_user_id a) message])
        end
    end
  else
    (false, h, [SendFailed (admin_user_id a) message]).

(** [notify_llm_failure] up to its first suspension, which is the one of
    the summary it awaits; nothing of its own follows that summary. *)
Definition notify_llm_failure_begin (a : t) (h : DataHandler.t)
           (now : datetime) (user_id : Z) (error_message model_name : pystr)
  : DataHandler.t * started :=
  let details := py "Model: " ++ model_name ++ py ", Error: " ++ error_message in
  let h1 := add_issue_for_notification h now (py "llm_failure") user_id details in
  if should_notify_admin_today h1 now then
    if pending_issues_count h1 now >=? 5 then
      (h1, send_daily_admin_summary_begin a h1 now)
    else (h1, Returned false [])
  else (h1, Returned false []).

End AdminNotifier.

(** ** The report lifecycle engine, [report_manager.py] *)

Module ReportManager.

Record t := mkmanager {
  ai_service : AIService.t;
  admin_notifier : AdminNotifier.t;
  bot_application : option Bot
}.

(** [send_message] inside the [try] of a notification helper *)
Definition send (bot : Bot) (chat_id : Z) (m : message) : list event :=
  if send_message bot chat_id m then [Sent chat_id m]
  else [SendFailed chat_id m].

Definition get_current_week_start (now : datetime) : date :=
  let today := date_of now in
  let days_since_monday := weekday today in
  add_days today (- days_since_monday).

Definition get_previous_week_start (now : datetime) : date :=
  add_days (get_current_week_start now) (-7).

Definition should_generate_report (m : t) (h : DataHandler.t) (now : datetime)
           (user_id : Z) : bool * pystr * date :=
  let previous_week_start := get_previous_week_start now in
  match DataHandler.get_weekly_report h user_id previous_week_start with
  | Some _ =>
      (false, py "Report already exists for previous week", previous_week_start)
  | None =>
      let week_sessions :=
        DataHandler.get_week_sessions h user_id previous_week_start in
      let '(is_sufficient, days_count, message) :=
        AIService.validate_data_sufficiency week_sessions in
      if negb is_sufficient then (false, message, previous_week_start)
      else
        (true,
         py "Ready to generate report (" ++ str_int days_count ++
         py " days of data)",
         previous_week_start)
  end.

Definition _notify_user_of_failure (m : t) (user_id : Z) (week_start : date)
           (retry_date : datetime) : list event :=
  match bot_application m with
  | None => []
  | Some bot => send bot user_id (ReportIssueNotice week_start retry_date)
  end.

Definition _notify_user_retry_success (m : t) (user_id : Z)
           (week_start : date) : list event :=
  match bot_application m with
  | None => []
  | Some bot => send bot user_id (RetrySuccessNotice week_start)
  end.

Definition _notify_user_max_retries (m : t) (user_id : Z)
           (week_start : date) : list event :=
  match bot_application m with
  | None => []
  | Some bot => send bot user_id (MaxRetriesNotice week_start)
  end.

(** [retry_date = datetime.now() + timedelta(days=2)], then the ledger
    entry, the message to the user and the admin notifier, in this order. *)
Definition _handle_report_generation_failure (m : t) (h : DataHandler.t)
           (now : datetime) (user_id : Z) (week_start : date)
           (error_message model_name error_type : pystr)
  : DataHandler.t * list event :=
  let retry_date := plus_days now 2 in
  let h1 :=
    DataHandler.save_failed_report_attempt
      h now user_id week_start error_message model_name (Some retry_date) in
  let notified := _notify_user_of_failure m user_id week_start retry_date in
  match bot_application m with
  | Some bot =>
      let '(h2, events) :=
        AdminNotifier.notify_llm_failure
          (admin_notifier m) h1 now user_id
          (error_type ++ py ": " ++ error_message) model_name bot in
      (h2, notified ++ events)
  | None => (h1, notified)
  end.

(** The storage operations of the model do not raise, so neither [except]
    clause of the method is entered; the clock is read once per call.  The
    trace starts with the [Generate] event that marks the entry. *)
Definition generate_weekly_report (m : t) (h : DataHandler.t) (now : datetime)
           (user_id : Z) (week_start : date) (is_retry : bool)
  : (bool * pystr) * DataHandler.t * list event :=
  let entered := [Generate user_id week_start is_retry] in
  let sessions := DataHandler.get_week_sessions h user_id week_start in
  let '(is_sufficient, days_count, message) :=
    AIService.validate_data_sufficiency sessions in
  if negb is_sufficient then ((false, message), h, entered)
  else
    let formatted_data := AIService.format_session_data sessions in
    let previous_reports :=
      DataHandler.get_previous_reports_for_context h user_id week_start in
    let '(success, report_content, metadata) :=
      AIService.generate_report (ai_service m) formatted_data previous_reports in
    if negb success then
      if negb is_retry then
        let '(h1, events) :=
          _handle_report_generation_failure
            m h now user_id week_start report_content
            (AIService.model_used metadata)
            (default (py "unknown") (AIService.error_type metadata)) in
        ((false, report_content), h1, entered ++ events)
      else ((false, report_content), h, entered)
    else
      let h1 :=
        DataHandler.save_weekly_report
          h now user_id week_start report_content formatted_data days_count
          (Some (AIService.model_used metadata)) in
      let h2 := DataHandler.clear_failed_report_attempts h1 user_id week_start in
      ((true, report_content), h2, entered).

(** One iteration of the loop of [process_pending_retries]. *)
Definition retry_step (m : t) (now : datetime)
           (acc : DataHandler.t * list event) (retry_info : retry_info)
  : DataHandler.t * list event :=
  let '(h, trace) := acc in
  let user_id := ri_user_id retry_info in
  let week_start := ri_week_start retry_info in
  let attempts := ri_attempts retry_info in
  if attempts >=? 3 then (h, trace)
  else
    let '(success, _, h1, events) :=
      generate_weekly_report m h now user_id week_start true in
    if success then
      (h1, trace ++ events ++ _notify_user_retry_success m user_id week_start)
    else if attempts >=? 2 then
      (h1, trace ++ events ++ _notify_user_max_retries m user_id week_start)
    else (h1, trace ++ events).

(** The list of pending retries is read once, before the loop. *)
Definition process_pending_retries (m : t) (h : DataHandler.t)
           (now : datetime) : DataHandler.t * list event :=
  let pending_retries := DataHandler.get_pending_report_retries h now in
  fold_left (retry_step m now) pending_retries (h, []).

End ReportManager.

(** ** The reminder job, [reminder_manager.py] *)

Module ReminderManager.

(** The wall clock: the server's naive local time, and the hour of the
    day in a named zone ([None] for a name [pytz] does not know). *)
Record clock := mkclock {
  now : datetime;
  hour_in : pystr -> option Z
}.

Record t := mkreminders {
  (** whether [initialize] registered a reminder callback *)
  reminder_callback : bool
}.

(** The reminder preferences merged with the defaults. *)
Definition get_user_timezone (h : DataHandler.t) (user_id : Z) : pystr :=
  match DataHandler.get_user_preferences h user_id with
  | Some preferences => default (py "Europe/Paris") (p_timezone preferences)
  | None => py "Europe/Paris"
  end.

(** The buttons [_create_reminder_message] puts on the keyboard. *)
Definition _create_reminder_message (reminder_type : session_type)
           (today : today_sessions) (hour : Z) : bool * bool :=
  match reminder_type with
  | morning =>
      (negb (bool_decide (is_Some (ts_morning today))),
       (hour >=? 18) && negb (bool_decide (is_Some (ts_evening today))))
  | evening =>
      (false, negb (bool_decide (is_Some (ts_evening today))))
  end.

(** The method catches every exception, so it always returns; a caught
    exception shows as a [LogError] event. *)
Definition _send_reminder (r : t) (h : DataHandler.t) (c : clock)
           (user_id : Z) (reminder_type : session_type) : list event :=
  match DataHandler.get_today_sessions h (now c) user_id with
  | Raise _ => [LogError "_send_reminder"]
  | Ok today_sessions =>
      match ts_get today_sessions reminder_type with
      | Some _ => []
      | None =>
          match hour_in c (get_user_timezone h user_id) with
          | None => [LogError "_send_reminder"]
          | Some hour =>
              let '(show_morning, show_evening) :=
                _create_reminder_message reminder_type today_sessions hour in
              if reminder_callback r then
                [Reminder user_id reminder_type show_morning show_evening]
              else []
          end
      end
  end.

End ReminderManager.

(** ** Vocabulary of the statements

    Read-only views of the store and of a trace; none of them is part of the
    program. *)

(** The FailureRecords stored for one (user, week_start), in stored order. *)
Definition failures_of (h : DataHandler.t) (user_id : Z) (week_start : date)
  : list failure :=
  match h with
  | DataHandler.JsonBackend d =>
      List.filter (fun f => bool_decide (f_week_start f = week_start))
                  (default [] (Json.failed_reports d !! user_id))
  | DataHandler.SqliteBackend d =>
      List.map
        (fun r => {| f_timestamp := Sqlite.fr_created_at r;
                     f_week_start := Sqlite.fr_week_start r;
                     f_error := Sqlite.fr_error_message r;
                     f_model := Sqlite.fr_model r;
                     f_retry_scheduled := Sqlite.fr_retry_scheduled r |})
        (List.filter (Sqlite.in_group (user_id, week_start))
                     (Sqlite.failed_reports d))
  end.

(** [retry_scheduled_at <= now] *)
Definition failure_due (now : datetime) (f : failure) : bool :=
  match f_retry_scheduled f with
  | Some t => t <=? now
  | None => false
  end.

Definition due_failures (h : DataHandler.t) (now : datetime) (user_id : Z)
           (week_start : date) : list failure :=
  List.filter (failure_due now) (failures_of h user_id week_start).

(** The stored sessions. *)
Definition sessions_of (h : DataHandler.t) : list session :=
  match h with
  | DataHandler.JsonBackend d => Json.responses d
  | DataHandler.SqliteBackend d => Sqlite.sessions d
  end.

(** The report records the store holds for one user under one week key. *)
Definition reports_under (h : DataHandler.t) (user_id : Z) (key : pystr)
  : list report :=
  match h with
  | DataHandler.JsonBackend d =>
      option_list (default ∅ (Json.weekly_reports d !! user_id) !! key)
  | DataHandler.SqliteBackend d =>
      List.map Sqlite.rr_report
        (List.filter (Sqlite.same_report_key user_id key)
                     (Sqlite.weekly_reports d))
  end.

(** The number of distinct calendar dates carrying a session. *)
Definition distinct_dates (sessions : list session) : Z :=
  Z.of_nat (size (list_to_set (omap s_date sessions) : gset date)).

(** An entry of the pending list is about the key (u, w). *)
Definition is_retry_of (u : Z) (w : date) (e : retry_info) : bool :=
  bool_decide (ri_user_id e = u) && bool_decide (ri_week_start e = w).

(** How often the key (u, w) occurs in a pending list. *)
Definition occurrences (u : Z) (w : date) (l : list retry_info) : nat :=
  List.length (List.filter (is_retry_of u w) l).

Definition count_events (p : event -> bool) (trace : list event) : nat :=
  List.length (List.filter p trace).

Definition is_generate_for (u : Z) (w : date) (e : event) : bool :=
  match e with
  | Generate u' w' _ => bool_decide (u' = u) && bool_decide (w' = w)
  | _ => false
  end.

(** A [send_message] call carrying the terminal notice for (u, w). *)
Definition is_max_retries_for (u : Z) (w : date) (e : event) : bool :=
  match e with
  | Sent u' (MaxRetriesNotice w') | SendFailed u' (MaxRetriesNotice w') =>
      bool_decide (u' = u) && bool_decide (w' = w)
  | _ => false
  end.

(** A [send_message] call carrying the retry announcement for (u, w). *)
Definition is_issue_notice_for (u : Z) (w : date) (retry : datetime) (e : event)
  : bool :=
  match e with
  | Sent u' (ReportIssueNotice w' r') | SendFailed u' (ReportIssueNotice w' r') =>
      bool_decide (u' = u) && bool_decide (w' = w) && bool_decide (r' = retry)
  | _ => false
  end.

(** A delivered daily error report. *)
Definition is_daily_report (e : event) : bool :=
  match e with
  | Sent _ (DailyErrorReport _ _ _) => true
  | _ => false
  end.

(** The recipient, the time and the issue total of a delivered daily error
    report. *)
Definition daily_report_of (e : event) : option (Z * datetime * Z) :=
  match e with
  | Sent chat_id (DailyErrorReport generated total _) =>
      Some (chat_id, generated, total)
  | _ => None
  end.

(** A message that left the bot, of any kind. *)
Definition is_outbound (e : event) : bool :=
  match e with
  | Sent _ _ | SendFailed _ _ | Reminder _ _ _ _ => true
  | Generate _ _ _ | LogError _ => false
  end.

(** The rows of the admin queue the notifier can write and read: the ones
    of the SQLite table; through the JSON handler it reaches none. *)
Definition admin_rows (h : DataHandler.t) : list Sqlite.admin_row :=
  match h with
  | DataHandler.JsonBackend _ => []
  | DataHandler.SqliteBackend d => Sqlite.admin_notifications d
  end.

(** The failure of [user_id] reached the admin: its row is in the queue, or
    a daily error report went out while handling it. *)
Definition escalated (h' : DataHandler.t) (trace : list event) (now : datetime)
           (user_id : Z) : Prop :=
  (exists r, In r (admin_rows h') /\
             Sqlite.an_notification_type r = py "llm_failure" /\
             Sqlite.an_user_id r = Some user_id /\
             Sqlite.an_created_at r = now)
  \/ (exists e, In e trace /\ is_daily_report e = true).

(** A flush is recorded for the day of [now]. *)
Definition flushed_today (h : DataHandler.t) (now : datetime) : Prop :=
  exists r, In r (admin_rows h) /\ Sqlite.is_summary r = true /\
            date_of (Sqlite.an_created_at r) = date_of now.

(** The request [generate_weekly_report] makes for (user, week) and the
    service's answer to it. *)
Definition service_reply (m : ReportManager.t) (h : DataHandler.t)
           (user_id : Z) (week_start : date) : AIService.api_outcome :=
  let sessions := DataHandler.get_week_sessions h user_id week_start in
  AIService.create (ReportManager.ai_service m)
    (AIService.load_system_prompt (ReportManager.ai_service m))
    (AIService.build_prompt_with_context
       (AIService.format_session_data sessions)
       (DataHandler.get_previous_reports_for_context h user_id week_start)).

(** The week holds enough data and the narrative step fails. *)
Definition generation_fails (m : ReportManager.t) (h : DataHandler.t)
           (user_id : Z) (week_start : date) : Prop :=
  let sessions := DataHandler.get_week_sessions h user_id week_start in
  (AIService.validate_data_sufficiency sessions).1.1 = true /\
  (AIService.generate_report (ReportManager.ai_service m)
     (AIService.format_session_data sessions)
     (DataHandler.get_previous_reports_for_context h user_id week_start)).1.1
  = false.

(** The record [_handle_report_generation_failure] appends. *)
Definition is_new_failure (now : datetime) (week_start : date) (f : failure)
  : Prop :=
  f_week_start f = week_start /\ f_timestamp f = now /\
  f_retry_scheduled f = Some (plus_days now 2).

(** The decimal rendering of [n] occurs in the message. *)
Definition count_in_message (n : Z) (msg : pystr) : Prop :=
  exists pre post, msg = pre ++ str_int n ++ post.

(** The sufficiency rule as the specification words it: fewer than three
    distinct dates are refused with the count in the message, three or more
    are accepted. *)
Definition sufficiency_claim (sessions : list session) : Prop :=
  let n := distinct_dates sessions in
  let r := AIService.validate_data_sufficiency sessions in
  (n < 3 -> r.1.1 = false /\ count_in_message n r.2) /\
  (3 <= n -> r.1.1 = true).

(** Everything but the failure ledger is the same in both stores. *)
Definition same_outside_failures (h h' : DataHandler.t) : Prop :=
  match h, h' with
  | DataHandler.JsonBackend d, DataHandler.JsonBackend d' =>
      Json.responses d' = Json.responses d /\
      Json.user_preferences d' = Json.user_preferences d /\
      Json.weekly_reports d' = Json.weekly_reports d /\
      Json.last_report_generated d' = Json.last_report_generated d
  | DataHandler.SqliteBackend d, DataHandler.SqliteBackend d' =>
      Sqlite.sessions d' = Sqlite.sessions d /\
      Sqlite.user_preferences d' = Sqlite.user_preferences d /\
      Sqlite.weekly_reports d' = Sqlite.weekly_reports d /\
      Sqlite.admin_notifications d' = Sqlite.admin_notifications d
  | _, _ => False
  end.

(** Everything but the admin queue is the same in both stores. *)
Definition same_outside_admin (h h' : DataHandler.t) : Prop :=
  match h, h' with
  | DataHandler.JsonBackend d, DataHandler.JsonBackend d' => d' = d
  | DataHandler.SqliteBackend d, DataHandler.SqliteBackend d' =>
      Sqlite.sessions d' = Sqlite.sessions d /\
      Sqlite.user_preferences d' = Sqlite.user_preferences d /\
      Sqlite.weekly_reports d' = Sqlite.weekly_reports d /\
      Sqlite.failed_reports d' = Sqlite.failed_reports d
  | _, _ => False
  end.

(** An event the admin notifier can produce: a daily error report, sent or
    failed, or a logged error. *)
Definition is_admin_event (e : event) : bool :=
  match e with
  | Sent _ (DailyErrorReport _ _ _) | SendFailed _ (DailyErrorReport _ _ _)
  | LogError _ => true
  | _ => false
  end.

(** The first-failure rule as the specification words it: a failed first
    attempt appends one FailureRecord due in two days, sends the user one
    retry announcement, and reaches the admin escalation queue. *)
Definition first_failure_claim (m : ReportManager.t) (h : DataHandler.t)
           (now : datetime) (u : Z) (w : date) : Prop :=
  generation_fails m h u w ->
  let res := ReportManager.generate_weekly_report m h now u w false in
  (exists f, failures_of res.1.2 u w = failures_of h u w ++ [f] /\
             is_new_failure now w f) /\
  count_events (is_issue_notice_for u w (plus_days now 2)) res.2 = 1%nat /\
  escalated res.1.2 res.2 now u.

(** ** Scenarios used to exercise the statements *)

Module Scenario.

Definition alice : Z := 7.
Definition admin : Z := 1000.

(** Monday 2025-01-13 and three check-in days of that week. *)
Definition week : date := mkdate 2025 1 13.

Definition session_on (d : date) (ty : session_type) : session :=
  mksession alice ty (at_time d 8 0) (Some d) [(py "mood", py "4")].

Definition three_days : list session :=
  [session_on (mkdate 2025 1 13) morning;
   session_on (mkdate 2025 1 15) evening;
   session_on (mkdate 2025 1 17) morning].

Definition now : datetime := at_time (mkdate 2025 2 3) 9 0.

(** A failure of the week's report recorded at [created], due two days
    later. *)
Definition failed_at (created : datetime) : failure :=
  mkfailure created week (py "LLM API error: unavailable")
            (py "openai/gpt-5") (Some (plus_days created 2)).

(** Recorded on the given January day: due before [now]. *)
Definition failed_on (january_day : Z) : failure :=
  failed_at (at_time (mkdate 2025 1 january_day) 9 0).

(** Recorded the day before [now]: not due yet. *)
Definition failed_yesterday : failure :=
  failed_at (at_time (mkdate 2025 2 2) 9 0).

Definition row_of (f : failure) : Sqlite.failed_row :=
  Sqlite.mkfailed_row alice (f_week_start f) (f_error f) (f_model f)
                      (f_retry_scheduled f) (f_timestamp f).

Definition json_store (failures : list failure) : DataHandler.t :=
  DataHandler.JsonBackend
    (Json.mkdata three_days ∅ ∅
                 (match failures with
                  | [] => ∅
                  | _ :: _ => {[alice := failures]}
                  end)
                 None).

Definition sqlite_store (failures : list failure) : DataHandler.t :=
  DataHandler.SqliteBackend
    (Sqlite.mkdb three_days ∅ [] (List.map row_of failures) []).

Definition narrative : pystr :=
  py "Your mood held steady this week and your energy rose towards Friday.".

(** A service that always answers with the given text. *)
Definition answering (text : pystr) : AIService.t :=
  AIService.mkservice (py "openai/gpt-5") None
                      (fun _ _ => AIService.Completion (Some text)).

(** A service that is down. *)
Definition unavailable : AIService.t :=
  AIService.mkservice (py "openai/gpt-5") None
                      (fun _ _ => AIService.APIError (py "unavailable")).

Definition telegram : Bot := mkbot (fun _ _ => true).

Definition manager (svc : AIService.t) (bot : option Bot) : ReportManager.t :=
  ReportManager.mkmanager svc (AdminNotifier.mknotifier admin) bot.

End Scenario.

(** Successive runs of the retry sweep, at the given times. *)
Definition sweeps (m : ReportManager.t) (h : DataHandler.t)
           (times : list datetime) : DataHandler.t * list event :=
  fold_left
    (fun acc when =>
       let res := ReportManager.process_pending_retries m acc.1 when in
       (res.1, acc.2 ++ res.2))
    times (h, []).

(** Every entry of the user carries its date. *)
Definition all_dated (user_id : Z) (l : list session) : Prop :=
  Forall (fun s => s_user_id s = user_id -> is_Some (s_date s)) l.

(** Today's session of the given type is in the store. *)
Definition recorded_today (h : DataHandler.t) (now : datetime) (u : Z)
           (ty : session_type) : Prop :=
  exists s, In s (sessions_of h) /\ s_user_id s = u /\
            s_date s = Some (date_of now) /\ s_session_type s = ty.

(** The calls that reach the admin notifier over a day: the scheduled daily
    summary, and the failures forwarded by the report manager. *)
Inductive admin_call :=
| DailySummary (when : datetime)
| LlmFailure (when : datetime) (user_id : Z) (error_message model_name : pystr).

Definition call_time (c : admin_call) : datetime :=
  match c with
  | DailySummary when => when
  | LlmFailure when _ _ _ => when
  end.

Definition admin_step (a : AdminNotifier.t) (bot : Bot)
           (acc : DataHandler.t * list event) (c : admin_call)
  : DataHandler.t * list event :=
  match c with
  | DailySummary when =>
      let res := AdminNotifier.send_daily_admin_summary a acc.1 when bot in
      (res.1.2, acc.2 ++ res.2)
  | LlmFailure when u e mdl =>
      let res := AdminNotifier.notify_llm_failure a acc.1 when u e mdl bot in
      (res.1, acc.2 ++ res.2)
  end.

(** Calls that do not overlap: each one runs to completion, its send
    included, before the next one starts. *)
Definition run_admin (a : AdminNotifier.t) (bot : Bot) (h : DataHandler.t)
           (calls : list admin_call) : DataHandler.t * list event :=
  fold_left (admin_step a bot) calls (h, []).

(** Calls that overlap.  The notifier's coroutines run as tasks of one
    event loop (the scheduler's jobs, [asyncio.create_task] in the session
    handler, the command handlers), so a task runs alone between two
    suspensions and any other task may run while it is suspended.  The loop
    holds the store, the sends in flight and the trace. *)
Record loop := mkloop {
  loop_store : DataHandler.t;
  loop_sending : list (message * Z);
  loop_trace : list event
}.

(** What the event loop does next: a task calls into the notifier, or the
    [i]-th send in flight completes at [when] and its task runs on. *)
Inductive loop_step :=
| Enter (c : admin_call)
| Wake (i : nat) (when : datetime).

Definition suspend (l : loop) (h : DataHandler.t) (s : AdminNotifier.started)
  : loop :=
  match s with
  | AdminNotifier.Returned _ events =>
      mkloop h (loop_sending l) (loop_trace l ++ events)
  | AdminNotifier.Awaiting message issues =>
      mkloop h (loop_sending l ++ [(message, issues)]) (loop_trace l)
  end.

Definition loop_next (a : AdminNotifier.t) (bot : Bot) (l : loop)
           (s : loop_step) : loop :=
  match s with
  | Enter (DailySummary when) =>
      suspend l (loop_store l)
              (AdminNotifier.send_daily_admin_summary_begin a (loop_store l) when)
  | Enter (LlmFailure when u e mdl) =>
      let res :=
        AdminNotifier.notify_llm_failure_begin a (loop_store l) when u e mdl in
      suspend l res.1 res.2
  | Wake i when =>
      match loop_sending l !! i with
      | None => l
      | Some (message, issues) =>
          let res :=
            AdminNotifier.send_daily_admin_summary_resume
              a (loop_store l) when bot message issues in
          mkloop res.1.2 (delete i (loop_sending l)) (loop_trace l ++ res.2)
      end
  end.

Definition run_loop (a : AdminNotifier.t) (bot : Bot) (h : DataHandler.t)
           (steps : list loop_step) : loop :=
  fold_left (loop_next a bot) steps (mkloop h [] []).

(** * Properties *)

(** ** Sanity checks of the calendar and string helpers *)

Example isocalendar_2021_01_03 : isocalendar (mkdate 2021 1 3) = (2020, 53, 7).
Proof. vm_compute. reflexivity. Qed.

Example ord2ymd_leap_day :
  add_days (mkdate 2024 2 28) 1 = mkdate 2024 2 29 /\
  add_days (mkdate 2023 2 28) 1 = mkdate 2023 3 1 /\
  add_days (mkdate 2024 12 30) 6 = mkdate 2025 1 5.
Proof. vm_compute. auto. Qed.

Example date_of_at_time :
  date_of (at_time (mkdate 2026 11 3) 23 59) = mkdate 2026 11 3 /\
  date_of (plus_days (at_time (mkdate 2026 12 30) 9 0) 2) = mkdate 2027 1 1.
Proof. vm_compute. auto. Qed.

Example str_int_examples :
  str_int 0 = py "0" /\ str_int (-12) = py "-12" /\
  fmt_02d 7 = py "07" /\ fmt_02d 53 = py "53".
Proof. vm_compute. auto. Qed.

Example strip_example :
  strip (py "  report " ++ [10%N]) = py "report".
Proof. vm_compute. reflexivity. Qed.

Example week_key_example :
  week_key (mkdate 2025 1 13) = py "2025_week_03".
Proof. vm_compute. reflexivity. Qed.

Example sorted_is_stable :
  let l := [(2, 1); (1, 2); (2, 3); (1, 4)] in
  sorted (fun x : Z * Z => x.1) false l = [(1, 2); (1, 4); (2, 1); (2, 3)] /\
  sorted (fun x : Z * Z => x.1) true l = [(2, 1); (2, 3); (1, 2); (1, 4)].
Proof. vm_compute. auto. Qed.

Example format_session_data_example :
  AIService.format_session_data
    [mksession 7 evening (at_time (mkdate 2025 1 13) 21 30)
               (Some (mkdate 2025 1 13))
               [(py "mood", py "4"); (py "day", py "word_calm")];
     mksession 7 morning (at_time (mkdate 2025 1 13) 8 5)
               (Some (mkdate 2025 1 13)) [(py "energy_level", py "3")]]
  = [10%N] ++ py "*Data for* 2025-01-13" ++ [10%N] ++
    py "Morning data, registered at 08:05 : energy level=3, mood=N/A, intention word for the day="
    ++ [34%N] ++ py "N/A" ++ [34%N] ++ [10%N] ++
    py "Evening data, registered at 21:30: mood=4, stress=N/A, word that describes this day best="
    ++ [34%N] ++ py "calm" ++ [34%N] ++
    py ", one sentence describing what had the most impact on your mood today="
    ++ [34%N] ++ py "N/A" ++ [34%N].
Proof. vm_compute. reflexivity. Qed.

Example build_prompt_example :
  AIService.build_prompt_with_context (py "data") [py "r1"; []; py "r3"; py "r4"]
  = py "*Current week data:*" ++ [10%N] ++ py "data" ++ [10%N] ++
    [10%N] ++ py "*Generated report for the previous week*:" ++ [10%N] ++
    py "r1" ++ [10%N] ++
    [10%N] ++ py "*Generated report for the 3 weeks before week*:" ++ [10%N] ++
    py "r3".
Proof. vm_compute. reflexivity. Qed.

(** ** The report store *)

Section ReportStore.

Lemma same_report_key_refl (row : Sqlite.report_row) :
  Sqlite.same_report_key (Sqlite.rr_user_id row) (Sqlite.rr_week_key row) row
  = true.
Proof.
  unfold Sqlite.same_report_key.
  rewrite !bool_decide_eq_true_2; auto.
Qed.

Lemma find_insert_or_replace (t : list Sqlite.report_row) row :
  List.find (Sqlite.same_report_key (Sqlite.rr_user_id row)
                                    (Sqlite.rr_week_key row))
            (Sqlite.insert_or_replace_report t row) = Some row.
Proof.
  unfold Sqlite.insert_or_replace_report.
  induction t as [|r t IH]; simpl.
  - rewrite same_report_key_refl. reflexivity.
  - destruct (Sqlite.same_report_key _ _ r) eqn:E; simpl.
    + exact IH.
    + rewrite E. exact IH.
Qed.

Lemma filter_insert_or_replace (t : list Sqlite.report_row) row :
  List.filter (Sqlite.same_report_key (Sqlite.rr_user_id row)
                                      (Sqlite.rr_week_key row))
              (Sqlite.insert_or_replace_report t row) = [row].
Proof.
  unfold Sqlite.insert_or_replace_report.
  induction t as [|r t IH]; simpl.
  - rewrite same_report_key_refl. reflexivity.
  - destruct (Sqlite.same_report_key _ _ r) eqn:E; simpl.
    + exact IH.
    + rewrite E. exact IH.
Qed.

Lemma json_get_after_save d now u w c i n mdl :
  exists r,
    Json.get_weekly_report (Json.save_weekly_report d now u w c i n mdl) u w
    = Some r /\
    r_week_start r = w /\ r_report_content r = c /\ r_generated_at r = now.
Proof.
  eexists. unfold Json.get_weekly_report, Json.save_weekly_report. simpl.
  rewrite lookup_insert_eq. simpl. rewrite lookup_insert_eq.
  split; [reflexivity|]. simpl. auto.
Qed.

Lemma sqlite_get_after_save d now u w c i n mdl :
  exists r,
    Sqlite.get_weekly_report (Sqlite.save_weekly_report d now u w c i n mdl) u w
    = Some r /\
    r_week_start r = w /\ r_report_content r = c /\ r_generated_at r = now.
Proof.
  eexists. unfold Sqlite.get_weekly_report, Sqlite.save_weekly_report. simpl.
  match goal with
  | |- context [Sqlite.insert_or_replace_report ?t ?row] =>
      pose proof (find_insert_or_replace t row) as H
  end.
  simpl in H. rewrite H. simpl. auto.
Qed.

End ReportStore.

(** C1.  The week key is built from the calendar year of [week_start] and
    its ISO week number, not from the ISO year.  For the Monday 2024-12-30
    (ISO week 1 of 2025) the key is ["2024_week_01"], the key of the Monday
    2024-01-01 as well: a report saved for the first week is what a lookup
    for the second one returns, on both backends. *)
Theorem week_key_calendar_year_collision :
  let jan := mkdate 2024 1 1 in
  let dec := mkdate 2024 12 30 in
  valid_date jan = true /\ valid_date dec = true /\
  weekday jan = 0 /\ weekday dec = 0 /\ jan <> dec /\
  isocalendar jan = (2024, 1, 1) /\
  isocalendar dec = (2025, 1, 1) /\
  iso_year dec = 2025 /\ year dec = 2024 /\
  week_key dec = py "2024_week_01" /\
  week_key jan = week_key dec /\
  (forall d now u c i n mdl,
      exists r,
        Json.get_weekly_report
          (Json.save_weekly_report d now u jan c i n mdl) u dec = Some r /\
        r_week_start r = jan) /\
  (forall d now u c i n mdl,
      exists r,
        Sqlite.get_weekly_report
          (Sqlite.save_weekly_report d now u jan c i n mdl) u dec = Some r /\
        r_week_start r = jan).
Proof.
  intros jan dec.
  assert (Hk : week_key dec = week_key jan) by (vm_compute; reflexivity).
  repeat split; try (vm_compute; reflexivity); try discriminate.
  - intros d now u c i n mdl.
    destruct (json_get_after_save d now u jan c i n mdl) as (r & Hr & Hw & _).
    exists r. unfold Json.get_weekly_report in *. rewrite Hk. auto.
  - intros d now u c i n mdl.
    destruct (sqlite_get_after_save d now u jan c i n mdl) as (r & Hr & Hw & _).
    exists r. unfold Sqlite.get_weekly_report in *. rewrite Hk. auto.
Qed.

(** ** Data sufficiency *)

Section Sufficiency.

Lemma unique_dates_fold (l : list session) (acc : gset date) :
  fold_left
    (fun acc session =>
       match s_date session with
       | Some d => acc ∪ {[d]}
       | None => acc
       end) l acc
  = acc ∪ list_to_set (omap s_date l).
Proof.
  revert acc. induction l as [|s l IH]; intros acc; simpl.
  - symmetry. apply (right_id_L ∅ (∪)).
  - rewrite IH. destruct (s_date s); simpl; [|reflexivity].
    symmetry. apply (assoc_L (∪)).
Qed.

Lemma unique_dates_spec (l : list session) :
  AIService.unique_dates l = list_to_set (omap s_date l).
Proof.
  unfold AIService.unique_dates. rewrite unique_dates_fold.
  apply (left_id_L ∅ (∪)).
Qed.

Lemma days_count_spec (l : list session) :
  Z.of_nat (size (AIService.unique_dates l)) = distinct_dates l.
Proof. unfold distinct_dates. rewrite unique_dates_spec. reflexivity. Qed.

Lemma distinct_dates_nil : distinct_dates [] = 0.
Proof. reflexivity. Qed.

Lemma distinct_dates_nonneg l : 0 <= distinct_dates l.
Proof. unfold distinct_dates. lia. Qed.

End Sufficiency.

(** C4, as stated, fails on the empty session list: the result is
    not-sufficient with count 0, but the message is the fixed text
    "No data available for the past week.", which does not show the count. *)
Lemma sufficiency_claim_fails_on_no_sessions : ~ sufficiency_claim [].
Proof.
  unfold sufficiency_claim. intros [H _].
  destruct H as [_ (pre & post & H)]; [vm_compute; reflexivity|].
  assert (Hin : In 48%N (AIService.validate_data_sufficiency []).2).
  { rewrite H. apply in_or_app. right. apply in_or_app. left.
    vm_compute. auto. }
  vm_compute in Hin. intuition discriminate.
Qed.

(** C4 (amended).  Sufficiency is decided by the number of distinct dates
    alone: the result is sufficient exactly when there are three or more,
    and the returned count is that number.  A non-empty list with fewer
    than three dates is refused with the count in the message; the empty
    list is refused with the fixed message "No data available for the past
    week.".  [should_generate_report] is eligible exactly when no report
    exists for the previous week and its sessions are sufficient. *)
Theorem validate_data_sufficiency_by_distinct_dates (sessions : list session) :
  let n := distinct_dates sessions in
  let r := AIService.validate_data_sufficiency sessions in
  (r.1.1 = true <-> 3 <= n) /\
  r.1.2 = n /\
  (sessions <> [] -> n < 3 ->
   r.2 = py "Insufficient data: only " ++ str_int n ++ py " day" ++
         (if n =? 1 then [] else py "s") ++
         py " with entries. Need at least 3 days." /\
   count_in_message n r.2) /\
  (sessions = [] -> r = (false, 0, py "No data available for the past week.")) /\
  (forall m h now u,
      let w := ReportManager.get_previous_week_start now in
      (ReportManager.should_generate_report m h now u).1.1 = true <->
      DataHandler.get_weekly_report h u w = None /\
      3 <= distinct_dates (DataHandler.get_week_sessions h u w)).
Proof.
  assert (Hv : forall l,
             ((AIService.validate_data_sufficiency l).1.1 = true
              <-> 3 <= distinct_dates l)).
  { intros l. unfold AIService.validate_data_sufficiency.
    destruct l as [|s l]; [rewrite distinct_dates_nil; simpl; split; [discriminate|lia]|].
    rewrite days_count_spec.
    destruct (distinct_dates (s :: l) <? 3) eqn:E; simpl.
    - apply Z.ltb_lt in E. split; [discriminate|lia].
    - apply Z.ltb_ge in E. split; auto. }
  assert (Hm : forall l,
             l <> [] -> distinct_dates l < 3 ->
             (AIService.validate_data_sufficiency l).2 =
             py "Insufficient data: only " ++ str_int (distinct_dates l) ++
             py " day" ++ (if distinct_dates l =? 1 then [] else py "s") ++
             py " with entries. Need at least 3 days.").
  { intros l Hne Hlt. unfold AIService.validate_data_sufficiency.
    destruct l; [congruence|]. rewrite days_count_spec.
    apply Z.ltb_lt in Hlt. rewrite Hlt. reflexivity. }
  intros n r. subst n r.
  split; [apply Hv|].
  split.
  { unfold AIService.validate_data_sufficiency.
    destruct sessions; [reflexivity|]. rewrite days_count_spec.
    destruct (_ <? 3); reflexivity. }
  split.
  { intros Hne Hlt. split; [apply Hm; assumption|].
    rewrite (Hm _ Hne Hlt).
    exists (py "Insufficient data: only "). eexists. reflexivity. }
  split; [intros ->; reflexivity|].
  intros m h now u w. unfold ReportManager.should_generate_report. fold w.
  destruct (DataHandler.get_weekly_report h u w) as [r|].
  { simpl. split; [discriminate|intros [? _]; discriminate]. }
  specialize (Hv (DataHandler.get_week_sessions h u w)).
  destruct (AIService.validate_data_sufficiency _) as [[ok c] msg].
  simpl in Hv. destruct ok; simpl; rewrite <- Hv; intuition.
Qed.

(** ** The failure ledger *)

Section Ledger.

Lemma filter_filter_sub {A} (p q : A -> bool) (l : list A) :
  (forall x, q x = true -> p x = true) ->
  List.filter q (List.filter p l) = List.filter q l.
Proof.
  intros Hpq. induction l as [|x l IH]; simpl; [reflexivity|].
  destruct (p x) eqn:Ep; simpl.
  - rewrite IH. reflexivity.
  - destruct (q x) eqn:Eq; [|exact IH].
    apply Hpq in Eq. congruence.
Qed.

Lemma filter_filter_disjoint {A} (p q : A -> bool) (l : list A) :
  (forall x, q x = true -> p x = false) ->
  List.filter q (List.filter p l) = [].
Proof.
  intros Hpq. induction l as [|x l IH]; simpl; [reflexivity|].
  destruct (p x) eqn:Ep; simpl; [|exact IH].
  destruct (q x) eqn:Eq; [|exact IH].
  apply Hpq in Eq. congruence.
Qed.

Lemma filter_filter_comm {A} (p q : A -> bool) (l : list A) :
  List.filter q (List.filter p l) = List.filter p (List.filter q l).
Proof.
  induction l as [|x l IH]; simpl; [reflexivity|].
  destruct (p x) eqn:Ep, (q x) eqn:Eq; simpl; rewrite ?Ep, ?Eq, IH; reflexivity.
Qed.

Lemma in_group_true k r :
  Sqlite.in_group k r = true <->
  Sqlite.fr_user_id r = k.1 /\ Sqlite.fr_week_start r = k.2.
Proof.
  unfold Sqlite.in_group.
  rewrite andb_true_iff, !bool_decide_eq_true. reflexivity.
Qed.

Lemma in_group_other u w u' w' r :
  (u', w') <> (u, w) ->
  Sqlite.in_group (u', w') r = true -> negb (Sqlite.in_group (u, w) r) = true.
Proof.
  intros Hne H. apply in_group_true in H as [Hu Hw]. simpl in *.
  apply negb_true_iff. apply not_true_is_false. intros H'.
  apply in_group_true in H' as [Hu' Hw']. simpl in *. congruence.
Qed.

(** The kept part of one user's list, seen through another week. *)
Lemma json_kept_other_week (w w' : date) (fs : list failure) :
  w' <> w ->
  List.filter (fun f => bool_decide (f_week_start f = w'))
    (List.filter (fun f => negb (bool_decide (f_week_start f = w))) fs)
  = List.filter (fun f => bool_decide (f_week_start f = w')) fs.
Proof.
  intros Hne. apply filter_filter_sub. intros f Hf.
  apply bool_decide_eq_true in Hf. apply negb_true_iff.
  apply bool_decide_eq_false. congruence.
Qed.

Lemma json_kept_same_week (w : date) (fs : list failure) :
  List.filter (fun f => bool_decide (f_week_start f = w))
    (List.filter (fun f => negb (bool_decide (f_week_start f = w))) fs) = [].
Proof.
  apply filter_filter_disjoint. intros f Hf. rewrite Hf. reflexivity.
Qed.

(** What [clear_failed_report_attempts] leaves in the JSON ledger. *)
Lemma json_clear_lookup d u w u' :
  default [] (Json.failed_reports (Json.clear_failed_report_attempts d u w) !! u')
  = if bool_decide (u' = u)
    then List.filter (fun f => negb (bool_decide (f_week_start f = w)))
                     (default [] (Json.failed_reports d !! u))
    else default [] (Json.failed_reports d !! u').
Proof.
  unfold Json.clear_failed_report_attempts.
  destruct (Json.failed_reports d !! u) as [fs|] eqn:E; simpl.
  - destruct (List.filter _ fs) as [|x kept] eqn:K; simpl;
      case_bool_decide as Hu; subst.
    + rewrite lookup_delete_eq. reflexivity.
    + rewrite lookup_delete_ne by congruence. reflexivity.
    + rewrite lookup_insert_eq. reflexivity.
    + rewrite lookup_insert_ne by congruence. reflexivity.
  - case_bool_decide as Hu; subst; [rewrite E|]; reflexivity.
Qed.

Lemma failures_of_clear_same h u w :
  failures_of (DataHandler.clear_failed_report_attempts h u w) u w = [].
Proof.
  destruct h as [d|d]; simpl.
  - rewrite json_clear_lookup, bool_decide_eq_true_2 by reflexivity.
    apply json_kept_same_week.
  - rewrite filter_filter_disjoint; [reflexivity|].
    intros r Hr. rewrite Hr. reflexivity.
Qed.

Lemma failures_of_clear_other h u w u' w' :
  (u', w') <> (u, w) ->
  failures_of (DataHandler.clear_failed_report_attempts h u w) u' w'
  = failures_of h u' w'.
Proof.
  intros Hne. destruct h as [d|d]; simpl.
  - rewrite json_clear_lookup. case_bool_decide as Hu; [subst|reflexivity].
    apply json_kept_other_week. congruence.
  - f_equal. apply filter_filter_sub. intros r. apply in_group_other, Hne.
Qed.

Lemma clear_same_outside_failures h u w :
  same_outside_failures h (DataHandler.clear_failed_report_attempts h u w).
Proof.
  destruct h as [d|d]; simpl.
  - unfold Json.clear_failed_report_attempts.
    destruct (Json.failed_reports d !! u); simpl; auto.
  - auto.
Qed.

Lemma failures_of_save_failed h now u w e mdl rs u' w' :
  failures_of (DataHandler.save_failed_report_attempt h now u w e mdl rs) u' w'
  = failures_of h u' w' ++
    (if bool_decide ((u', w') = (u, w))
     then [mkfailure now w e mdl rs] else []).
Proof.
  destruct h as [d|d]; simpl.
  - destruct (decide (u' = u)) as [->|Hu].
    + rewrite lookup_insert_eq. simpl. rewrite List.filter_app. simpl.
      destruct (decide (w' = w)) as [->|Hw].
      * rewrite !bool_decide_eq_true_2 by reflexivity. reflexivity.
      * rewrite !bool_decide_eq_false_2 by congruence. reflexivity.
    + rewrite lookup_insert_ne by congruence.
      rewrite bool_decide_eq_false_2 by congruence.
      rewrite app_nil_r. reflexivity.
  - rewrite List.filter_app, List.map_app. f_equal. simpl.
    unfold Sqlite.in_group. simpl.
    destruct (decide (u' = u)) as [->|Hu];
      destruct (decide (w' = w)) as [->|Hw];
      rewrite ?bool_decide_eq_true_2 by reflexivity;
      rewrite ?(bool_decide_eq_false_2 (u = u')) by congruence;
      rewrite ?(bool_decide_eq_false_2 (w = w')) by congruence;
      rewrite ?(bool_decide_eq_false_2 (_ = _ :> Z * date)) by congruence;
      simpl; rewrite ?andb_false_r; reflexivity.
Qed.

Lemma failures_of_save_report h now u w c i n mdl u' w' :
  failures_of (DataHandler.save_weekly_report h now u w c i n mdl) u' w'
  = failures_of h u' w'.
Proof. destruct h; reflexivity. Qed.

End Ledger.

(** C10.  [clear_failed_report_attempts (user, week_start)] leaves no
    FailureRecord of that user for that week, keeps the FailureRecords of
    every other (user, week) as they were, in order, and changes nothing
    else in the store (sessions, preferences, reports, and on SQLite the
    admin queue), on both backends. *)
Theorem clear_failed_report_attempts_frame (h : DataHandler.t) (u : Z) (w : date) :
  let h' := DataHandler.clear_failed_report_attempts h u w in
  failures_of h' u w = [] /\
  (forall u' w', (u', w') <> (u, w) ->
                 failures_of h' u' w' = failures_of h u' w') /\
  same_outside_failures h h'.
Proof.
  intros h'. subst h'. split; [apply failures_of_clear_same|].
  split; [intros u' w'; apply failures_of_clear_other|].
  apply clear_same_outside_failures.
Qed.

(** ** Successful generation *)

Section Success.

Lemma get_weekly_report_after_save h now u w c i n mdl :
  let h1 := DataHandler.save_weekly_report h now u w c i n mdl in
  exists r,
    DataHandler.get_weekly_report h1 u w = Some r /\
    reports_under h1 u (week_key w) = [r] /\
    r_week_start r = w /\ r_report_content r = c /\ r_generated_at r = now.
Proof.
  destruct h as [d|d]; simpl.
  - eexists. unfold Json.get_weekly_report, Json.save_weekly_report. simpl.
    rewrite !lookup_insert_eq. simpl. rewrite !lookup_insert_eq. simpl.
    repeat split; reflexivity.
  - eexists. unfold Sqlite.get_weekly_report, Sqlite.save_weekly_report. simpl.
    match goal with
    | |- context [Sqlite.insert_or_replace_report ?t ?row] =>
        pose proof (find_insert_or_replace t row) as Hfind;
        pose proof (filter_insert_or_replace t row) as Hfilter
    end.
    simpl in Hfind, Hfilter. rewrite Hfind, Hfilter. simpl.
    repeat split; reflexivity.
Qed.

Lemma reports_after_clear h u w u' w' :
  let h' := DataHandler.clear_failed_report_attempts h u w in
  DataHandler.get_weekly_report h' u' w' = DataHandler.get_weekly_report h u' w' /\
  forall key, reports_under h' u' key = reports_under h u' key.
Proof.
  pose proof (clear_same_outside_failures h u w) as H.
  destruct h as [d|d]; simpl in *.
  - destruct H as (_ & _ & Hr & _).
    unfold Json.get_weekly_report. rewrite Hr. auto.
  - auto.
Qed.

End Success.

(** C6.  Whenever [generate_weekly_report] returns success, whatever the
    number N of FailureRecords stored before for (user, week_start), the
    resulting store returns the new report for that week (its content is the
    returned text, generated now), holds exactly that one record under the
    week key, and holds no FailureRecord for (user, week_start); on both
    backends and for first attempts and retries alike. *)
Theorem generate_success_saves_report_and_clears_failures
        (m : ReportManager.t) (h : DataHandler.t) (now : datetime) (u : Z)
        (w : date) (is_retry : bool) (N : nat)
        (content : pystr) (h' : DataHandler.t) (trace : list event) :
  List.length (failures_of h u w) = N ->
  ReportManager.generate_weekly_report m h now u w is_retry
  = ((true, content), h', trace) ->
  (exists r,
      DataHandler.get_weekly_report h' u w = Some r /\
      reports_under h' u (week_key w) = [r] /\
      r_week_start r = w /\ r_report_content r = content /\
      r_generated_at r = now) /\
  failures_of h' u w = [].
Proof.
  intros _ Hgen. unfold ReportManager.generate_weekly_report in Hgen.
  destruct (AIService.validate_data_sufficiency _) as [[ok days] msg].
  destruct ok; simpl in Hgen; [|discriminate].
  destruct (AIService.generate_report _ _ _) as [[success rc] meta].
  destruct success; simpl in Hgen.
  - injection Hgen as <- <- <-.
    split; [|apply failures_of_clear_same].
    match goal with
    | |- context [DataHandler.save_weekly_report ?h ?now ?u ?w ?c ?i ?n ?mdl] =>
        destruct (get_weekly_report_after_save h now u w c i n mdl)
          as (r & Hget & Hone & Hw & Hc & Ht)
    end.
    exists r.
    match goal with
    | |- context [DataHandler.clear_failed_report_attempts ?h1 u w] =>
        destruct (reports_after_clear h1 u w u w) as [Hg Hu]
    end.
    simpl in Hg, Hu. rewrite Hg, Hu. auto.
  - destruct is_retry; simpl in Hgen; [discriminate|].
    destruct (ReportManager._handle_report_generation_failure _ _ _ _ _ _ _ _).
    discriminate.
Qed.

(** ** The admin notifier touches the admin queue only *)

(** Case analysis on the list a [match] of the goal inspects. *)
Ltac destruct_list_match :=
  lazymatch goal with
  | |- context [match ?l with [] => _ | _ :: _ => _ end] =>
      let E := fresh "E" in destruct l eqn:E
  end.

Section AdminFrame.

Lemma same_outside_admin_refl h : same_outside_admin h h.
Proof. destruct h; simpl; auto. Qed.

Lemma same_outside_admin_trans h1 h2 h3 :
  same_outside_admin h1 h2 -> same_outside_admin h2 h3 ->
  same_outside_admin h1 h3.
Proof.
  destruct h1, h2, h3; simpl; try tauto; try congruence.
  intros (-> & -> & -> & ->) (-> & -> & -> & ->). auto.
Qed.

Lemma same_outside_admin_failures h h' u w :
  same_outside_admin h h' -> failures_of h' u w = failures_of h u w.
Proof.
  destruct h, h'; simpl; try tauto.
  - intros ->. reflexivity.
  - intros (_ & _ & _ & ->). reflexivity.
Qed.

Lemma add_issue_same_outside_admin h now ty u details :
  same_outside_admin h (AdminNotifier.add_issue_for_notification h now ty u details).
Proof. destruct h; simpl; auto. Qed.

Lemma send_daily_same_outside_admin a h now bot :
  same_outside_admin h (AdminNotifier.send_daily_admin_summary a h now bot).1.2.
Proof.
  unfold AdminNotifier.send_daily_admin_summary.
  destruct (negb _); [apply same_outside_admin_refl|].
  destruct h as [d|d]; simpl; [auto|].
  destruct_list_match. { simpl; auto. }
  destruct (send_message _ _ _); simpl; auto.
Qed.

Lemma notify_llm_failure_same_outside_admin a h now u e mdl bot :
  same_outside_admin h (AdminNotifier.notify_llm_failure a h now u e mdl bot).1.
Proof.
  unfold AdminNotifier.notify_llm_failure.
  set (h1 := AdminNotifier.add_issue_for_notification _ _ _ _ _).
  assert (H1 : same_outside_admin h h1) by apply add_issue_same_outside_admin.
  destruct (AdminNotifier.should_notify_admin_today h1 now); [|exact H1].
  destruct (_ >=? 5); [|exact H1].
  pose proof (send_daily_same_outside_admin a h1 now bot) as H2.
  destruct (AdminNotifier.send_daily_admin_summary a h1 now bot) as [[b h2] ev].
  simpl in *. eapply same_outside_admin_trans; eassumption.
Qed.

Lemma send_daily_events a h now bot :
  Forall (fun e => is_admin_event e = true)
         (AdminNotifier.send_daily_admin_summary a h now bot).2.
Proof.
  unfold AdminNotifier.send_daily_admin_summary.
  destruct (negb _); [constructor|].
  destruct (DataHandler.get_admin_notifications h now) as [n|];
    [|repeat constructor].
  destruct (pending_issues n); [constructor|].
  destruct (send_message _ _ _); [|repeat constructor].
  destruct (DataHandler.mark_admin_notified_today _ _ _);
    [|repeat constructor].
  destruct (DataHandler.clear_pending_admin_issues _); repeat constructor.
Qed.

Lemma notify_llm_failure_events a h now u e mdl bot :
  Forall (fun e => is_admin_event e = true)
         (AdminNotifier.notify_llm_failure a h now u e mdl bot).2.
Proof.
  unfold AdminNotifier.notify_llm_failure.
  set (h1 := AdminNotifier.add_issue_for_notification _ _ _ _ _).
  destruct (AdminNotifier.should_notify_admin_today h1 now); [|constructor].
  destruct (_ >=? 5); [|constructor].
  pose proof (send_daily_events a h1 now bot) as H.
  destruct (AdminNotifier.send_daily_admin_summary a h1 now bot) as [[b h2] ev].
  exact H.
Qed.

(** On SQLite the failure is queued, or flushed at once in a report. *)
Lemma notify_llm_failure_escalates a d now u e mdl bot :
  let res := AdminNotifier.notify_llm_failure
               a (DataHandler.SqliteBackend d) now u e mdl bot in
  escalated res.1 res.2 now u.
Proof.
  intros res. subst res. unfold AdminNotifier.notify_llm_failure.
  set (details := py "Model: " ++ mdl ++ py ", Error: " ++ e).
  set (d1 := Sqlite.add_admin_notification d now (py "llm_failure") u details).
  change (AdminNotifier.add_issue_for_notification
            (DataHandler.SqliteBackend d) now (py "llm_failure") u details)
    with (DataHandler.SqliteBackend d1).
  assert (Hrow : escalated (DataHandler.SqliteBackend d1) [] now u
                 /\ forall tr, escalated (DataHandler.SqliteBackend d1) tr now u).
  { assert (forall tr, escalated (DataHandler.SqliteBackend d1) tr now u); [|auto].
    intros tr. left. eexists. split.
    - simpl. apply in_or_app. right. left. reflexivity.
    - simpl. auto. }
  destruct Hrow as [Hrow Hany].
  destruct (AdminNotifier.should_notify_admin_today _ now) eqn:Hs; [|exact Hrow].
  destruct (_ >=? 5); [|exact Hrow].
  unfold AdminNotifier.send_daily_admin_summary. rewrite Hs. simpl.
  destruct_list_match. { exact Hrow. }
  destruct (send_message _ _ _) eqn:Hsend; simpl; [|apply Hany].
  right. eexists. split; [left; reflexivity|reflexivity].
Qed.

End AdminFrame.

(** ** Failed generation *)

Section Failure.

Lemma count_events_app p l1 l2 :
  count_events p (l1 ++ l2) = (count_events p l1 + count_events p l2)%nat.
Proof. unfold count_events. rewrite List.filter_app, length_app. reflexivity. Qed.

Lemma count_events_none p q l :
  Forall (fun e => q e = true) l ->
  (forall e, q e = true -> p e = false) ->
  count_events p l = 0%nat.
Proof.
  intros Hl Hpq. unfold count_events.
  induction Hl as [|e l He _ IH]; simpl; [reflexivity|].
  rewrite (Hpq e He). exact IH.
Qed.

Lemma admin_event_not_issue_notice u w r e :
  is_admin_event e = true -> is_issue_notice_for u w r e = false.
Proof. destruct e as [? []|? []| | |]; simpl; congruence. Qed.

Lemma admin_event_not_max_retries u w e :
  is_admin_event e = true -> is_max_retries_for u w e = false.
Proof. destruct e as [? []|? []| | |]; simpl; congruence. Qed.

Lemma count_issue_notice_send bot u w r :
  count_events (is_issue_notice_for u w r)
               (ReportManager.send bot u (ReportIssueNotice w r)) = 1%nat.
Proof.
  unfold ReportManager.send, count_events.
  destruct (send_message _ _ _); simpl;
    rewrite !bool_decide_eq_true_2 by reflexivity; reflexivity.
Qed.

(** The shape of a call whose narrative step fails. *)
Lemma generate_failure_shape m h now u w is_retry :
  generation_fails m h u w ->
  let sessions := DataHandler.get_week_sessions h u w in
  let gr := AIService.generate_report
              (ReportManager.ai_service m)
              (AIService.format_session_data sessions)
              (DataHandler.get_previous_reports_for_context h u w) in
  let hf := ReportManager._handle_report_generation_failure
              m h now u w gr.1.2 (AIService.model_used gr.2)
              (default (py "unknown") (AIService.error_type gr.2)) in
  ReportManager.generate_weekly_report m h now u w is_retry =
  if is_retry then ((false, gr.1.2), h, [Generate u w true])
  else ((false, gr.1.2), hf.1, [Generate u w false] ++ hf.2).
Proof.
  intros [Hok Hfail]. cbv zeta. unfold ReportManager.generate_weekly_report.
  destruct (AIService.validate_data_sufficiency _) as [[ok days] msg].
  simpl in Hok. subst ok. simpl.
  destruct (AIService.generate_report _ _ _) as [[success rc] meta].
  simpl in Hfail. subst success. simpl.
  destruct is_retry; simpl; [reflexivity|].
  destruct (ReportManager._handle_report_generation_failure _ _ _ _ _ _ _ _).
  reflexivity.
Qed.

Lemma handle_failure_ledger m h now u w e mdl et u' w' :
  failures_of
    (ReportManager._handle_report_generation_failure m h now u w e mdl et).1
    u' w'
  = failures_of h u' w' ++
    (if bool_decide ((u', w') = (u, w))
     then [mkfailure now w e mdl (Some (plus_days now 2))] else []).
Proof.
  unfold ReportManager._handle_report_generation_failure.
  destruct (ReportManager.bot_application m) as [bot|]; simpl.
  - match goal with
    | |- context [AdminNotifier.notify_llm_failure ?a ?h1 ?n ?x ?y ?z ?b] =>
        pose proof (notify_llm_failure_same_outside_admin a h1 n x y z b) as H;
        destruct (AdminNotifier.notify_llm_failure a h1 n x y z b) as [h2 ev]
    end.
    simpl in *. rewrite (same_outside_admin_failures _ _ _ _ H).
    apply failures_of_save_failed.
  - apply failures_of_save_failed.
Qed.

Lemma handle_failure_trace m h now u w e mdl et bot :
  ReportManager.bot_application m = Some bot ->
  (ReportManager._handle_report_generation_failure m h now u w e mdl et).2
  = ReportManager.send bot u (ReportIssueNotice w (plus_days now 2)) ++
    (AdminNotifier.notify_llm_failure
       (ReportManager.admin_notifier m)
       (DataHandler.save_failed_report_attempt
          h now u w e mdl (Some (plus_days now 2)))
       now u (et ++ py ": " ++ e) mdl bot).2.
Proof.
  intros Hbot.
  unfold ReportManager._handle_report_generation_failure,
    ReportManager._notify_user_of_failure.
  rewrite Hbot.
  destruct (AdminNotifier.notify_llm_failure _ _ _ _ _ _ _). reflexivity.
Qed.

Lemma handle_failure_state m h now u w e mdl et bot :
  ReportManager.bot_application m = Some bot ->
  (ReportManager._handle_report_generation_failure m h now u w e mdl et).1
  = (AdminNotifier.notify_llm_failure
       (ReportManager.admin_notifier m)
       (DataHandler.save_failed_report_attempt
          h now u w e mdl (Some (plus_days now 2)))
       now u (et ++ py ": " ++ e) mdl bot).1.
Proof.
  intros Hbot.
  unfold ReportManager._handle_report_generation_failure.
  rewrite Hbot.
  destruct (AdminNotifier.notify_llm_failure _ _ _ _ _ _ _). reflexivity.
Qed.

(** A failed first attempt is reported as a failure and recorded once. *)
Lemma failed_first_attempt_recorded m h now u w :
  generation_fails m h u w ->
  let first := ReportManager.generate_weekly_report m h now u w false in
  first.1.1.1 = false /\
  exists f, failures_of first.1.2 u w = failures_of h u w ++ [f] /\
            is_new_failure now w f.
Proof.
  intros Hfail first. subst first.
  rewrite (generate_failure_shape m h now u w false Hfail). cbv zeta. simpl.
  split; [reflexivity|].
  eexists. split.
  - rewrite handle_failure_ledger.
    rewrite bool_decide_eq_true_2 by reflexivity. reflexivity.
  - repeat split.
Qed.

End Failure.

(** Without a bot application the failure handler records the failure and
    does nothing else. *)
Lemma handle_failure_without_bot m h now u w e mdl et :
  ReportManager.bot_application m = None ->
  ReportManager._handle_report_generation_failure m h now u w e mdl et
  = (DataHandler.save_failed_report_attempt
       h now u w e mdl (Some (plus_days now 2)), []).
Proof.
  intros Hbot.
  unfold ReportManager._handle_report_generation_failure,
    ReportManager._notify_user_of_failure.
  rewrite Hbot. reflexivity.
Qed.

Lemma admin_rows_save_failed h now u w e mdl rs :
  admin_rows (DataHandler.save_failed_report_attempt h now u w e mdl rs)
  = admin_rows h.
Proof. destruct h; reflexivity. Qed.

(** C5, as stated, fails for a manager to which no bot application is
    attached, a case both [_handle_report_generation_failure] and
    [_notify_user_of_failure] test for: the failed first attempt is recorded
    in the ledger, but the user is sent no message and the admin notifier is
    not called, although the SQLite backend in use has the admin queue. *)
Lemma first_failure_claim_fails_without_bot :
  ~ first_failure_claim
      (Scenario.manager Scenario.unavailable None)
      (Scenario.sqlite_store []) Scenario.now Scenario.alice Scenario.week.
Proof.
  intros H.
  destruct H as (_ & Hcount & _); [split; vm_compute; reflexivity|].
  vm_compute in Hcount. discriminate Hcount.
Qed.

(** C5 (amended).  When the narrative step fails on a first attempt
    ([is_retry = False]), exactly one FailureRecord is appended for
    (user, week_start), created now and due at now + 2 days, and no other
    ledger entry changes.  If a bot application is attached, the user is
    sent the retry announcement exactly once and, on the SQLite backend, the
    failure is forwarded to the admin queue: it is queued there, or flushed
    at once in a daily error report.  If no bot application is attached,
    nothing is sent and the admin queue is left as it is.  When the
    narrative step fails on a retry ([is_retry = True]) the store is
    unchanged and nothing is sent. *)
Theorem first_failure_appends_one_record_and_notifies
        (m : ReportManager.t) (h : DataHandler.t) (now : datetime)
        (u : Z) (w : date) :
  generation_fails m h u w ->
  let first := ReportManager.generate_weekly_report m h now u w false in
  let again := ReportManager.generate_weekly_report m h now u w true in
  first.1.1.1 = false /\
  (exists f, failures_of first.1.2 u w = failures_of h u w ++ [f] /\
             is_new_failure now w f) /\
  (forall u' w', (u', w') <> (u, w) ->
                 failures_of first.1.2 u' w' = failures_of h u' w') /\
  (forall bot,
      ReportManager.bot_application m = Some bot ->
      count_events (is_issue_notice_for u w (plus_days now 2)) first.2 = 1%nat /\
      (send_message bot u (ReportIssueNotice w (plus_days now 2)) = true ->
       In (Sent u (ReportIssueNotice w (plus_days now 2))) first.2) /\
      (forall d, h = DataHandler.SqliteBackend d ->
                 escalated first.1.2 first.2 now u)) /\
  (ReportManager.bot_application m = None ->
   first.2 = [Generate u w false] /\ admin_rows first.1.2 = admin_rows h) /\
  again.1.1.1 = false /\ again.1.2 = h /\ again.2 = [Generate u w true].
Proof.
  intros Hfail first again. subst first again.
  rewrite !(generate_failure_shape m h now u w _ Hfail). cbv zeta. simpl.
  set (gr := AIService.generate_report _ _ _).
  set (hf := ReportManager._handle_report_generation_failure _ _ _ _ _ _ _ _).
  split; [reflexivity|].
  split.
  { eexists. split.
    - subst hf. rewrite handle_failure_ledger.
      rewrite bool_decide_eq_true_2 by reflexivity. reflexivity.
    - repeat split. }
  split.
  { intros u' w' Hne. subst hf. rewrite handle_failure_ledger.
    rewrite bool_decide_eq_false_2 by assumption. apply app_nil_r. }
  split; [|split; [|auto]].
  2:{ intros Hbot. subst hf.
      rewrite (handle_failure_without_bot _ _ _ _ _ _ _ _ Hbot). simpl.
      split; [reflexivity|apply admin_rows_save_failed]. }
  intros bot Hbot.
  assert (Htr : hf.2 = ReportManager.send bot u (ReportIssueNotice w (plus_days now 2))
                       ++ _) by (subst hf; apply handle_failure_trace, Hbot).
  split; [|split].
  - change (Generate u w false :: hf.2) with ([Generate u w false] ++ hf.2).
    rewrite Htr, !count_events_app, count_issue_notice_send.
    match goal with
    | |- context [count_events ?p (AdminNotifier.notify_llm_failure
                                     ?a ?h1 ?n ?x ?y ?z ?b).2] =>
        rewrite (count_events_none
                   p is_admin_event
                   (AdminNotifier.notify_llm_failure a h1 n x y z b).2
                   (notify_llm_failure_events a h1 n x y z b)
                   (fun e => admin_event_not_issue_notice _ _ _ e))
    end.
    reflexivity.
  - intros Hsend. right. rewrite Htr. apply in_or_app. left.
    unfold ReportManager.send. rewrite Hsend. left. reflexivity.
  - intros d ->.
    assert (Hst := handle_failure_state m (DataHandler.SqliteBackend d) now u w
                     gr.1.2 (AIService.model_used gr.2)
                     (default (py "unknown") (AIService.error_type gr.2))
                     bot Hbot).
    fold hf in Hst. rewrite Hst.
    match type of Hst with
    | _ = (AdminNotifier.notify_llm_failure ?a _ ?n ?x ?y ?z ?b).1 =>
        pose proof (notify_llm_failure_escalates
                      a (Sqlite.save_failed_report_attempt
                           d now u w gr.1.2 (AIService.model_used gr.2)
                           (Some (plus_days now 2))) n x y z b) as Hesc
    end.
    simpl in Hesc. destruct Hesc as [Hrow|(e & Hin & He)].
    + left. exact Hrow.
    + right. exists e. split; [|exact He].
      right. rewrite Htr. apply in_or_app. right. exact Hin.
Qed.

(** A failing service on the SQLite backend, with the bot attached. *)
Lemma first_failure_appends_one_record_and_notifies_witness :
  let m := Scenario.manager Scenario.unavailable (Some Scenario.telegram) in
  let h := Scenario.sqlite_store [Scenario.failed_on 21] in
  generation_fails m h Scenario.alice Scenario.week /\
  (ReportManager.generate_weekly_report
     m h Scenario.now Scenario.alice Scenario.week true).1.2 = h.
Proof.
  intros m h.
  assert (Hfail : generation_fails m h Scenario.alice Scenario.week)
    by (split; vm_compute; reflexivity).
  split; [exact Hfail|].
  apply (first_failure_appends_one_record_and_notifies
           m h Scenario.now Scenario.alice Scenario.week Hfail).
Defined.

(** A working service after two recorded failures, on the JSON backend. *)
Lemma generate_success_saves_report_and_clears_failures_witness :
  let m := Scenario.manager (Scenario.answering Scenario.narrative)
                            (Some Scenario.telegram) in
  let h := Scenario.json_store [Scenario.failed_on 21; Scenario.failed_on 24] in
  let res := ReportManager.generate_weekly_report
               m h Scenario.now Scenario.alice Scenario.week true in
  List.length (failures_of h Scenario.alice Scenario.week) = 2%nat /\
  res.1.1 = (true, Scenario.narrative) /\
  failures_of res.1.2 Scenario.alice Scenario.week = [].
Proof.
  intros m h res.
  assert (H0 : List.length (failures_of h Scenario.alice Scenario.week) = 2%nat)
    by (vm_compute; reflexivity).
  assert (H1 : res = ((true, Scenario.narrative), res.1.2, res.2))
    by (vm_compute; reflexivity).
  split; [exact H0|]. split; [vm_compute; reflexivity|].
  apply (generate_success_saves_report_and_clears_failures
           m h Scenario.now Scenario.alice Scenario.week true 2
           Scenario.narrative res.1.2 res.2 H0 H1).
Defined.

(** ** Degenerate narrative output *)

Section ShortContent.

Lemma too_short_spec (content : option pystr) :
  len (strip (default [] content)) < 50 ->
  AIService.too_short content = true.
Proof.
  destruct content as [[|c s]|]; simpl; try reflexivity.
  intros H. apply Z.ltb_lt. exact H.
Qed.

End ShortContent.

(** C7.  If the narrative service returns a text that is missing, empty, or
    shorter than 50 characters once stripped, [generate_report] returns
    failure with error class [insufficient_content]; and a first attempt of
    [generate_weekly_report] on a week with enough data then takes the
    failure path: it returns failure and appends one FailureRecord for
    (user, week_start), created now and due at now + 2 days. *)
Theorem short_content_is_insufficient_content (content : option pystr) :
  len (strip (default [] content)) < 50 ->
  (forall svc current_week_data previous_reports,
      AIService.create svc (AIService.load_system_prompt svc)
        (AIService.build_prompt_with_context current_week_data previous_reports)
      = AIService.Completion content ->
      let r := AIService.generate_report svc current_week_data previous_reports in
      r.1.1 = false /\
      AIService.error_type r.2 = Some (py "insufficient_content")) /\
  (forall m h now u w,
      (AIService.validate_data_sufficiency
         (DataHandler.get_week_sessions h u w)).1.1 = true ->
      service_reply m h u w = AIService.Completion content ->
      let res := ReportManager.generate_weekly_report m h now u w false in
      res.1.1.1 = false /\
      exists f, failures_of res.1.2 u w = failures_of h u w ++ [f] /\
                is_new_failure now w f).
Proof.
  intros Hshort. apply too_short_spec in Hshort.
  assert (Hgen : forall svc data prev,
             AIService.create svc (AIService.load_system_prompt svc)
               (AIService.build_prompt_with_context data prev)
             = AIService.Completion content ->
             AIService.generate_report svc data prev =
             (false, py "Generated report was too short or empty.",
              AIService.mkmeta (AIService.model svc)
                               (Some (py "insufficient_content")) None)).
  { intros svc data prev Hreply. unfold AIService.generate_report.
    rewrite Hreply, Hshort. reflexivity. }
  split.
  - intros svc data prev Hreply r. subst r. rewrite (Hgen _ _ _ Hreply).
    split; reflexivity.
  - intros m h now u w Hok Hreply res.
    assert (Hfail : generation_fails m h u w).
    { split; [exact Hok|]. unfold service_reply in Hreply.
      rewrite (Hgen _ _ _ Hreply). reflexivity. }
    apply failed_first_attempt_recorded, Hfail.
Qed.

(** The ten-character answer of the specification's scenario. *)
Lemma short_content_is_insufficient_content_witness :
  let m := Scenario.manager (Scenario.answering (py "Too short.")) None in
  let h := Scenario.sqlite_store [] in
  len (strip (py "Too short.")) = 10 /\
  (ReportManager.generate_weekly_report
     m h Scenario.now Scenario.alice Scenario.week false).1.1.1 = false.
Proof.
  intros m h. split; [vm_compute; reflexivity|].
  assert (Hshort : len (strip (default [] (Some (py "Too short.")))) < 50)
    by (vm_compute; reflexivity).
  apply (proj2 (short_content_is_insufficient_content
                  (Some (py "Too short.")) Hshort)
               m h Scenario.now Scenario.alice Scenario.week).
  - vm_compute. reflexivity.
  - vm_compute. reflexivity.
Defined.

(** ** Pending retries *)

(** C3.  The two backends each miss one half of the contract.  With two
    due FailureRecords for one (user, week), the JSON backend returns two
    entries for that key, one per due record (each with [attempts] 2), where
    the SQLite backend returns one.  With one due and one not yet due
    record for one key, the SQLite backend returns [attempts] 1, the number
    of due records, where the JSON backend returns 2, the number of stored
    records. *)
Theorem pending_retries_differ_between_backends :
  let both_due := [Scenario.failed_on 21; Scenario.failed_on 24] in
  let one_due := [Scenario.failed_on 21; Scenario.failed_yesterday] in
  let entry n :=
    mkretry Scenario.alice Scenario.week (py "LLM API error: unavailable") n in
  DataHandler.get_pending_report_retries (Scenario.json_store both_due) Scenario.now
  = [entry 2; entry 2] /\
  DataHandler.get_pending_report_retries (Scenario.sqlite_store both_due) Scenario.now
  = [entry 2] /\
  List.length (failures_of (Scenario.sqlite_store one_due)
                           Scenario.alice Scenario.week) = 2%nat /\
  DataHandler.get_pending_report_retries (Scenario.sqlite_store one_due) Scenario.now
  = [entry 1] /\
  DataHandler.get_pending_report_retries (Scenario.json_store one_due) Scenario.now
  = [entry 2].
Proof. vm_compute. repeat split; reflexivity. Qed.

Section PendingRetries.

Lemma length_filter_le {A} (p : A -> bool) (l : list A) :
  (List.length (List.filter p l) <= List.length l)%nat.
Proof.
  induction l as [|x l IH]; simpl; [lia|]. destruct (p x); simpl; lia.
Qed.

Lemma filter_map_comm {A B} (f : A -> B) (p : B -> bool) (l : list A) :
  List.filter p (List.map f l) = List.map f (List.filter (fun x => p (f x)) l).
Proof.
  induction l as [|x l IH]; simpl; [reflexivity|].
  destruct (p (f x)); simpl; rewrite IH; reflexivity.
Qed.

(** JSON: every returned entry carries the number of records stored for
    its key. *)
Lemma json_pending_attempts d now e :
  In e (Json.get_pending_report_retries d now) ->
  ri_attempts e =
  Z.of_nat (List.length (failures_of (DataHandler.JsonBackend d)
                                     (ri_user_id e) (ri_week_start e))).
Proof.
  unfold Json.get_pending_report_retries. intros H.
  apply in_flat_map in H as ([u fs] & Hin & He).
  apply list_elem_of_In, elem_of_map_to_list in Hin.
  simpl in He. unfold Json.pending_of in He.
  apply in_flat_map in He as (f & _ & He). unfold Json.pending_entry in He.
  destruct (f_retry_scheduled f) as [t|]; [|destruct He].
  destruct (t <=? now); [|destruct He].
  destruct He as [<-|[]]. simpl. rewrite Hin. reflexivity.
Qed.

(** SQLite: every returned entry carries the number of due records of its
    key. *)
Lemma sqlite_pending_attempts d now e :
  In e (Sqlite.get_pending_report_retries d now) ->
  ri_attempts e =
  Z.of_nat (List.length (due_failures (DataHandler.SqliteBackend d) now
                                      (ri_user_id e) (ri_week_start e))).
Proof.
  unfold Sqlite.get_pending_report_retries. intros H.
  apply in_map_iff in H as ([u w] & <- & _). simpl.
  unfold due_failures. simpl.
  rewrite filter_map_comm, length_map, filter_filter_comm.
  reflexivity.
Qed.

Lemma pending_attempts_capped h now u w e :
  (3 <= List.length (due_failures h now u w))%nat ->
  In e (DataHandler.get_pending_report_retries h now) ->
  ri_user_id e = u -> ri_week_start e = w -> 3 <= ri_attempts e.
Proof.
  intros Hdue Hin <- <-. destruct h as [d|d]; simpl in Hin.
  - rewrite (json_pending_attempts d now e Hin).
    pose proof (length_filter_le (failure_due now)
                  (failures_of (DataHandler.JsonBackend d)
                               (ri_user_id e) (ri_week_start e))) as Hle.
    unfold due_failures in Hdue. lia.
  - rewrite (sqlite_pending_attempts d now e Hin). lia.
Qed.

(** A retry that fails changes nothing and sends nothing by itself. *)
Lemma generate_retry_trace m h now u w :
  (ReportManager.generate_weekly_report m h now u w true).2
  = [Generate u w true].
Proof.
  unfold ReportManager.generate_weekly_report.
  destruct (AIService.validate_data_sufficiency _) as [[ok days] msg].
  destruct ok; simpl; [|reflexivity].
  destruct (AIService.generate_report _ _ _) as [[success rc] meta].
  destruct success; reflexivity.
Qed.

Lemma generate_retry_ledger_other m h now u w u' w' :
  (u', w') <> (u, w) ->
  failures_of (ReportManager.generate_weekly_report m h now u w true).1.2 u' w'
  = failures_of h u' w'.
Proof.
  intros Hne. unfold ReportManager.generate_weekly_report.
  destruct (AIService.validate_data_sufficiency _) as [[ok days] msg].
  destruct ok; simpl; [|reflexivity].
  destruct (AIService.generate_report _ _ _) as [[success rc] meta].
  destruct success; simpl; [|reflexivity].
  rewrite failures_of_clear_other by exact Hne.
  apply failures_of_save_report.
Qed.

Lemma key_test_other (u u' : Z) (w w' : date) :
  (u', w') <> (u, w) ->
  bool_decide (u' = u) && bool_decide (w' = w) = false.
Proof.
  intros Hne. apply andb_false_iff.
  destruct (decide (u' = u)) as [->|Hu].
  - right. apply bool_decide_eq_false. congruence.
  - left. apply bool_decide_eq_false. exact Hu.
Qed.

Lemma count_send_other_key p bot u' msg :
  p (Sent u' msg) = false -> p (SendFailed u' msg) = false ->
  count_events p (ReportManager.send bot u' msg) = 0%nat.
Proof.
  intros H1 H2. unfold ReportManager.send, count_events.
  destruct (send_message _ _ _); simpl; rewrite ?H1, ?H2; reflexivity.
Qed.

(** What one iteration adds to the trace and does to the ledger when it
    is not about the key (u, w), or when the key is capped. *)
Lemma retry_step_other_key m now h tr e u w :
  (ri_user_id e = u -> ri_week_start e = w -> 3 <= ri_attempts e) ->
  let res := ReportManager.retry_step m now (h, tr) e in
  count_events (is_generate_for u w) res.2
  = count_events (is_generate_for u w) tr /\
  count_events (is_max_retries_for u w) res.2
  = count_events (is_max_retries_for u w) tr /\
  failures_of res.1 u w = failures_of h u w.
Proof.
  intros Hcap. unfold ReportManager.retry_step. cbv zeta.
  destruct (ri_attempts e >=? 3) eqn:E3; [simpl; auto|].
  assert (Hne : (ri_user_id e, ri_week_start e) <> (u, w)).
  { intros [= Hu Hw]. specialize (Hcap Hu Hw). lia. }
  pose proof (generate_retry_trace m h now (ri_user_id e) (ri_week_start e))
    as Htr.
  pose proof (generate_retry_ledger_other
                m h now (ri_user_id e) (ri_week_start e) u w
                (fun H => Hne (eq_sym H))) as Hled.
  destruct (ReportManager.generate_weekly_report _ _ _ _ _ _)
    as [[[success rc] h1] ev].
  simpl in Htr, Hled. subst ev.
  assert (Hgen : count_events (is_generate_for u w)
                   [Generate (ri_user_id e) (ri_week_start e) true] = 0%nat).
  { unfold count_events. simpl. rewrite key_test_other by exact Hne.
    reflexivity. }
  assert (Hmax : count_events (is_max_retries_for u w)
                   [Generate (ri_user_id e) (ri_week_start e) true] = 0%nat)
    by reflexivity.
  assert (Hok : forall p msg,
             p (Sent (ri_user_id e) msg) = false ->
             p (SendFailed (ri_user_id e) msg) = false ->
             count_events p
               (match ReportManager.bot_application m with
                | Some bot => ReportManager.send bot (ri_user_id e) msg
                | None => []
                end) = 0%nat).
  { intros p msg H1 H2. destruct (ReportManager.bot_application m);
      [apply count_send_other_key; assumption|reflexivity]. }
  destruct success; [|destruct (ri_attempts e >=? 2)]; cbn [fst snd];
    unfold ReportManager._notify_user_retry_success,
      ReportManager._notify_user_max_retries;
    rewrite ?count_events_app, ?Hgen, ?Hmax;
    rewrite ?Hok
      by (simpl; rewrite ?key_test_other by exact Hne; reflexivity);
    repeat split; solve [lia | exact Hled].
Qed.

Lemma retries_skip_capped_key m now u w (l : list retry_info) :
  forall h tr,
    (forall e, In e l -> ri_user_id e = u -> ri_week_start e = w ->
               3 <= ri_attempts e) ->
    let res := fold_left (ReportManager.retry_step m now) l (h, tr) in
    count_events (is_generate_for u w) res.2
    = count_events (is_generate_for u w) tr /\
    count_events (is_max_retries_for u w) res.2
    = count_events (is_max_retries_for u w) tr /\
    failures_of res.1 u w = failures_of h u w.
Proof.
  induction l as [|e l IH]; intros h tr Hcap; cbv zeta; [simpl; auto|].
  cbn [fold_left].
  destruct (retry_step_other_key m now h tr e u w) as (Hg & Hm & Hl).
  { apply Hcap. left. reflexivity. }
  destruct (ReportManager.retry_step m now (h, tr) e) as [h1 tr1] eqn:E.
  cbn [fst snd] in Hg, Hm, Hl.
  destruct (IH h1 tr1) as (Hg' & Hm' & Hl').
  { intros e' He'. apply Hcap. right. exact He'. }
  rewrite Hg', Hm', Hl', Hg, Hm, Hl. auto.
Qed.

(** How often a key occurs in the pending list of each backend. *)

Lemma occurrences_app u w l1 l2 :
  occurrences u w (l1 ++ l2) = (occurrences u w l1 + occurrences u w l2)%nat.
Proof. unfold occurrences. rewrite List.filter_app, length_app. reflexivity. Qed.

Lemma pending_entry_due now u' all f :
  Json.pending_entry now u' all f
  = if failure_due now f
    then [mkretry u' (f_week_start f) (f_error f)
            (Z.of_nat (List.length
               (List.filter
                  (fun g => bool_decide (f_week_start g = f_week_start f))
                  all)))]
    else [].
Proof.
  unfold Json.pending_entry, failure_due.
  destruct (f_retry_scheduled f) as [t|]; [destruct (t <=? now)|]; reflexivity.
Qed.

Lemma occurrences_pending_entries now u w u' all (l : list failure) :
  occurrences u w (flat_map (Json.pending_entry now u' all) l)
  = if bool_decide (u' = u)
    then List.length
           (List.filter (failure_due now)
              (List.filter (fun f => bool_decide (f_week_start f = w)) l))
    else 0%nat.
Proof.
  induction l as [|f l IH]; simpl; [destruct (bool_decide _); reflexivity|].
  rewrite occurrences_app, IH, pending_entry_due. clear IH.
  unfold occurrences, is_retry_of.
  destruct (bool_decide (u' = u)) eqn:Eu;
    destruct (bool_decide (f_week_start f = w)) eqn:Ew;
    destruct (failure_due now f) eqn:Ed; simpl;
    rewrite ?Eu, ?Ew, ?Ed; simpl; reflexivity.
Qed.

Lemma occurrences_flat_map_perm u w (f : Z * list failure -> list retry_info)
      (l l' : list (Z * list failure)) :
  l ≡ₚ l' -> occurrences u w (flat_map f l) = occurrences u w (flat_map f l').
Proof.
  induction 1; simpl; rewrite ?occurrences_app; try lia.
Qed.

Lemma occurrences_other_users now u w (l : list (Z * list failure)) :
  Forall (fun uf => uf.1 <> u) l ->
  occurrences u w (flat_map (fun uf => Json.pending_of now uf.1 uf.2) l) = 0%nat.
Proof.
  induction 1 as [|[u' fs] l Hu _ IH]; simpl; [reflexivity|].
  rewrite occurrences_app, IH. unfold Json.pending_of.
  rewrite occurrences_pending_entries.
  rewrite bool_decide_eq_false_2 by exact Hu. reflexivity.
Qed.

(** JSON: a key occurs once for each of its due records. *)
Lemma json_pending_occurrences d now u w :
  occurrences u w (Json.get_pending_report_retries d now)
  = List.length (due_failures (DataHandler.JsonBackend d) now u w).
Proof.
  unfold Json.get_pending_report_retries, due_failures. simpl.
  assert (Hrest : forall m : gmap Z (list failure),
             m !! u = None ->
             occurrences u w
               (flat_map (fun uf => Json.pending_of now uf.1 uf.2)
                         (map_to_list m)) = 0%nat).
  { intros m Hm. apply occurrences_other_users, Forall_forall.
    intros [u' fs] Hin Hu. simpl in Hu. subst u'.
    apply elem_of_map_to_list in Hin. congruence. }
  destruct (Json.failed_reports d !! u) as [fs|] eqn:E; simpl.
  - rewrite <- (occurrences_flat_map_perm
                  u w _ _ _ (map_to_list_delete _ u fs E)).
    simpl. rewrite occurrences_app, Hrest by apply lookup_delete_eq.
    unfold Json.pending_of. rewrite occurrences_pending_entries.
    rewrite bool_decide_eq_true_2 by reflexivity. lia.
  - apply Hrest, E.
Qed.

Lemma occurrences_nodup_keys u w (g : Z * date -> retry_info)
      (keys : list (Z * date)) :
  (forall k, ri_user_id (g k) = k.1 /\ ri_week_start (g k) = k.2) ->
  NoDup keys ->
  occurrences u w (List.map g keys)
  = if bool_decide ((u, w) ∈ keys) then 1%nat else 0%nat.
Proof.
  intros Hg Hnd. induction Hnd as [|k keys Hk _ IH]; [reflexivity|].
  unfold occurrences in *. simpl. unfold is_retry_of at 1.
  destruct (Hg k) as [-> ->].
  destruct (decide (k = (u, w))) as [->|Hne].
  - simpl. rewrite !bool_decide_eq_true_2 by reflexivity. simpl.
    rewrite IH, bool_decide_eq_false_2 by exact Hk.
    rewrite bool_decide_eq_true_2 by (left). reflexivity.
  - rewrite key_test_other by (destruct k; exact Hne).
    rewrite IH.
    assert (Hiff : (u, w) ∈ k :: keys <-> (u, w) ∈ keys).
    { rewrite elem_of_cons. split; [|auto].
      intros [H|H]; [congruence|exact H]. }
    rewrite (bool_decide_ext _ _ Hiff). reflexivity.
Qed.

(** SQLite: a key with a due record occurs exactly once. *)
Lemma sqlite_pending_occurrences d now u w :
  occurrences u w (Sqlite.get_pending_report_retries d now)
  = match due_failures (DataHandler.SqliteBackend d) now u w with
    | [] => 0%nat
    | _ :: _ => 1%nat
    end.
Proof.
  unfold Sqlite.get_pending_report_retries.
  rewrite occurrences_nodup_keys;
    [|intros k; simpl; auto|apply NoDup_remove_dups].
  unfold due_failures. simpl.
  rewrite filter_map_comm, (filter_filter_comm (Sqlite.in_group (u, w))).
  change (fun x => failure_due now _) with (Sqlite.is_due now).
  set (due := List.filter (Sqlite.is_due now) (Sqlite.failed_reports d)).
  case_bool_decide as Hin.
  - apply elem_of_remove_dups, list_elem_of_In, in_map_iff in Hin
      as (r & Hr & Hin).
    assert (Hg : In r (List.filter (Sqlite.in_group (u, w)) due)).
    { apply filter_In. split; [exact Hin|]. apply in_group_true.
      simpl. split; congruence. }
    destruct (List.filter (Sqlite.in_group (u, w)) due); [destruct Hg|].
    reflexivity.
  - destruct (List.filter (Sqlite.in_group (u, w)) due) as [|r rest] eqn:E;
      [reflexivity|].
    exfalso. apply Hin. apply elem_of_remove_dups, list_elem_of_In, in_map_iff.
    assert (Hr : In r (List.filter (Sqlite.in_group (u, w)) due))
      by (rewrite E; left; reflexivity).
    apply filter_In in Hr as [Hr Hg]. apply in_group_true in Hg as [Hu Hw].
    exists r. split; [|exact Hr]. simpl in *. congruence.
Qed.

End PendingRetries.

(** *** The retry cap over successive sweeps *)

Section RetryCap.

Lemma failure_due_later now later f :
  now <= later -> failure_due now f = true -> failure_due later f = true.
Proof.
  unfold failure_due. intros Hle. destruct (f_retry_scheduled f) as [t|];
    [|discriminate].
  intros H. apply Z.leb_le in H. apply Z.leb_le. lia.
Qed.

Lemma due_failures_later h now later u w :
  now <= later ->
  (List.length (due_failures h now u w)
   <= List.length (due_failures h later u w))%nat.
Proof.
  intros Hle. unfold due_failures.
  induction (failures_of h u w) as [|f l IH]; simpl; [lia|].
  destruct (failure_due now f) eqn:E.
  - rewrite (failure_due_later now later f Hle E). simpl. lia.
  - destruct (failure_due later f); simpl; lia.
Qed.

(** The sweep skips a key with three or more due FailureRecords: it does
    not invoke [generate_weekly_report] for it, sends no terminal notice for
    it and leaves its FailureRecords as they are. *)
Lemma capped_key_is_skipped_silently
      (m : ReportManager.t) (h : DataHandler.t) (now : datetime)
      (u : Z) (w : date) :
  (3 <= List.length (due_failures h now u w))%nat ->
  let res := ReportManager.process_pending_retries m h now in
  count_events (is_generate_for u w) res.2 = 0%nat /\
  count_events (is_max_retries_for u w) res.2 = 0%nat /\
  failures_of res.1 u w = failures_of h u w.
Proof.
  intros Hdue res. subst res. unfold ReportManager.process_pending_retries.
  apply (retries_skip_capped_key
           m now u w (DataHandler.get_pending_report_retries h now) h []).
  intros e. apply pending_attempts_capped, Hdue.
Qed.

(** So no later sweep ever sends the terminal notice for such a key
    either. *)
Lemma capped_key_is_never_notified
      (m : ReportManager.t) (h : DataHandler.t) (now : datetime)
      (u : Z) (w : date) (times : list datetime) :
  (3 <= List.length (due_failures h now u w))%nat ->
  Forall (fun when => now <= when) times ->
  let res := sweeps m h times in
  count_events (is_generate_for u w) res.2 = 0%nat /\
  count_events (is_max_retries_for u w) res.2 = 0%nat /\
  failures_of res.1 u w = failures_of h u w.
Proof.
  intros Hdue Htimes. cbv zeta. unfold sweeps.
  assert (Hgen : forall h0 tr,
             failures_of h0 u w = failures_of h u w ->
             let res :=
               fold_left
                 (fun acc when =>
                    let res :=
                      ReportManager.process_pending_retries m acc.1 when in
                    (res.1, acc.2 ++ res.2))
                 times (h0, tr) in
             count_events (is_generate_for u w) res.2
             = count_events (is_generate_for u w) tr /\
             count_events (is_max_retries_for u w) res.2
             = count_events (is_max_retries_for u w) tr /\
             failures_of res.1 u w = failures_of h u w).
  { induction Htimes as [|when times Hwhen _ IH]; intros h0 tr Hsame;
      cbv zeta; [simpl; auto|].
    cbn [fold_left]. cbv beta zeta. cbn [fst snd].
    assert (Hdue0 : (3 <= List.length (due_failures h0 when u w))%nat).
    { pose proof (due_failures_later h now when u w Hwhen) as Hle.
      unfold due_failures in *. rewrite Hsame. lia. }
    destruct (capped_key_is_skipped_silently m h0 when u w Hdue0)
      as (Hg & Hm & Hl).
    destruct (IH (ReportManager.process_pending_retries m h0 when).1
                 (tr ++ (ReportManager.process_pending_retries m h0 when).2))
      as (Hg' & Hm' & Hl').
    { rewrite Hl. exact Hsame. }
    cbv beta zeta in Hg', Hm', Hl'.
    rewrite Hg', Hm', Hl', !count_events_app, Hg, Hm.
    repeat split; lia. }
  apply (Hgen h []). reflexivity.
Qed.

End RetryCap.

(** C2.  The sweep does skip a key with three or more due FailureRecords,
    but the terminal notice is not sent once per key.  After three failed
    first attempts for one week (the user's command, the Sunday evening
    trigger and the Sunday job) the key holds three FailureRecords, and
    three successive sweeps send the user nothing: the terminal notice
    never goes out.  With two FailureRecords each sweep retries the key and
    sends the terminal notice when the retry fails, and as a failed retry
    appends no FailureRecord the next sweep does the same: the notice goes
    out once per sweep.  With one FailureRecord each sweep retries the key
    and sends nothing, for the same reason without end. *)
Theorem terminal_notice_is_not_once_per_key :
  let m := Scenario.manager Scenario.unavailable (Some Scenario.telegram) in
  let u := Scenario.alice in
  let w := Scenario.week in
  let attempt h when :=
    (ReportManager.generate_weekly_report m h when u w false).1.2 in
  let thrice :=
    attempt (attempt (attempt (Scenario.sqlite_store [])
                              (at_time (mkdate 2025 1 24) 12 0))
                     (at_time (mkdate 2025 1 26) 21 0))
            (at_time (mkdate 2025 1 26) 22 30) in
  let two := Scenario.sqlite_store [Scenario.failed_on 21; Scenario.failed_on 24] in
  let one := Scenario.sqlite_store [Scenario.failed_on 21] in
  let six_hours := 6 * 3600 * 1000000 in
  let times := [Scenario.now; Scenario.now + six_hours;
                Scenario.now + 2 * six_hours] in
  let retry := Generate u w true in
  let gave_up := Sent u (MaxRetriesNotice w) in
  List.length (due_failures thrice Scenario.now u w) = 3%nat /\
  sweeps m thrice times = (thrice, []) /\
  sweeps m two times = (two, [retry; gave_up; retry; gave_up; retry; gave_up]) /\
  sweeps m one times = (one, [retry; retry; retry]).
Proof. vm_compute. repeat split; reflexivity. Qed.

(** ** Reminders *)

Section Reminders.

Lemma ts_get_set_same t ty s : ts_get (ts_set t ty s) ty = Some s.
Proof. destruct ty; reflexivity. Qed.

Lemma ts_get_set_is_some t ty ty' s :
  is_Some (ts_get t ty) -> is_Some (ts_get (ts_set t ty' s) ty).
Proof. destruct ty, ty'; simpl; eauto. Qed.

Lemma today_fold_keeps (user_id : Z) (today : date) (ty : session_type)
      (l : list session) (acc : today_sessions) :
  is_Some (ts_get acc ty) ->
  is_Some
    (ts_get
       (fold_left
          (fun acc s =>
             if bool_decide (s_user_id s = user_id) &&
                bool_decide (s_date s = Some today)
             then ts_set acc (s_session_type s) s else acc)
          l acc) ty).
Proof.
  revert acc. induction l as [|s l IH]; intros acc Hacc; simpl; [exact Hacc|].
  apply IH. destruct (_ && _); [apply ts_get_set_is_some|]; exact Hacc.
Qed.

Lemma today_fold_finds (user_id : Z) (today : date) (ty : session_type)
      (l : list session) (acc : today_sessions) (s : session) :
  In s l -> s_user_id s = user_id -> s_date s = Some today ->
  s_session_type s = ty ->
  is_Some
    (ts_get
       (fold_left
          (fun acc s =>
             if bool_decide (s_user_id s = user_id) &&
                bool_decide (s_date s = Some today)
             then ts_set acc (s_session_type s) s else acc)
          l acc) ty).
Proof.
  revert acc. induction l as [|s' l IH]; intros acc Hin Hu Hd Hty;
    [destruct Hin|].
  destruct Hin as [->|Hin]; simpl.
  - apply today_fold_keeps.
    rewrite !bool_decide_eq_true_2 by assumption. simpl.
    rewrite <- Hty, ts_get_set_same. eauto.
  - apply IH; assumption.
Qed.

(** The JSON loop finds what the fold finds as long as every entry of the
    user carries its date, and raises otherwise. *)
Lemma today_loop_dated (u : Z) (today : date) (l : list session)
      (acc : today_sessions) :
  all_dated u l ->
  Json.today_loop u today l acc
  = Ok (fold_left
          (fun acc s =>
             if bool_decide (s_user_id s = u) &&
                bool_decide (s_date s = Some today)
             then ts_set acc (s_session_type s) s else acc)
          l acc).
Proof.
  intros Hall. revert acc.
  induction Hall as [|s l Hs _ IH]; intros acc; simpl; [reflexivity|].
  case_bool_decide as Hu; simpl; [|apply IH].
  destruct (Hs Hu) as [d Hd]. rewrite Hd, IH.
  destruct (decide (d = today)) as [->|Hne].
  - rewrite !bool_decide_eq_true_2 by reflexivity. reflexivity.
  - rewrite !bool_decide_eq_false_2 by congruence. reflexivity.
Qed.

Lemma today_loop_undated (u : Z) (today : date) (l : list session)
      (acc : today_sessions) :
  (exists s, In s l /\ s_user_id s = u /\ s_date s = None) ->
  Json.today_loop u today l acc = Raise KeyError.
Proof.
  intros (s & Hin & Hu & Hd). revert acc.
  induction l as [|s' l IH]; intros acc; [destruct Hin|]. simpl.
  destruct Hin as [->|Hin].
  - rewrite bool_decide_eq_true_2 by exact Hu. rewrite Hd. reflexivity.
  - case_bool_decide; [|apply IH, Hin].
    destruct (s_date s'); [apply IH, Hin|reflexivity].
Qed.

Lemma json_today_recorded d now u ty :
  all_dated u (Json.responses d) ->
  recorded_today (DataHandler.JsonBackend d) now u ty ->
  is_Some (ts_get (Json.get_today_sessions d now u) ty).
Proof.
  intros Hall (s & Hin & Hu & Hd & Hty). unfold Json.get_today_sessions.
  cbv zeta. rewrite (today_loop_dated u _ _ _ Hall).
  eapply today_fold_finds; eassumption.
Qed.

(** One entry of the user without a date hides all sessions of today. *)
Lemma json_today_undated d now u :
  (exists s, In s (Json.responses d) /\ s_user_id s = u /\ s_date s = None) ->
  Json.get_today_sessions d now u = mktoday None None.
Proof.
  intros H. unfold Json.get_today_sessions. cbv zeta.
  rewrite (today_loop_undated u _ _ _ H). reflexivity.
Qed.

(** A session saved today is recorded for every clock reading of the day. *)
Lemma save_session_recorded_today h saved now u ty answers :
  date_of saved = date_of now ->
  recorded_today (DataHandler.save_session h saved u ty answers) now u ty.
Proof.
  intros Hday. eexists. split.
  - destruct h; simpl; apply in_or_app; right; left; reflexivity.
  - simpl. rewrite Hday. auto.
Qed.

(** On the JSON backend, with every entry of the user dated, a recorded
    session suppresses the reminder: the job ends with no event at all. *)
Lemma json_recorded_session_suppresses_reminder
      (r : ReminderManager.t) (d : Json.data) (c : ReminderManager.clock)
      (u : Z) (ty : session_type) :
  all_dated u (Json.responses d) ->
  recorded_today (DataHandler.JsonBackend d) (ReminderManager.now c) u ty ->
  ReminderManager._send_reminder r (DataHandler.JsonBackend d) c u ty = [].
Proof.
  intros Hall Hrec. unfold ReminderManager._send_reminder. simpl.
  destruct (json_today_recorded d _ u ty Hall Hrec) as [s Hs].
  rewrite Hs. reflexivity.
Qed.

(** On the SQLite backend the job never gets as far as the check. *)
Lemma sqlite_reminder_always_raises
      (r : ReminderManager.t) (d : Sqlite.db) (c : ReminderManager.clock)
      (u : Z) (ty : session_type) :
  ReminderManager._send_reminder r (DataHandler.SqliteBackend d) c u ty
  = [LogError "_send_reminder"].
Proof. reflexivity. Qed.

End Reminders.

(** C8.  The check is made when the job fires, on the store of that moment,
    but it does not suppress the reminder the way the claim says.  On the
    SQLite backend the wrapper passes [user_timezone] to a
    [get_today_sessions] that takes the user only: every firing raises
    [TypeError] inside [_send_reminder], which logs the error and sends
    nothing, whether today's session is recorded or not.  On the JSON
    backend one entry of the user without a ["date"] makes
    [get_today_sessions] answer that nothing is recorded, and the reminder
    goes out although today's session is in the store.  Only on the JSON
    backend with every entry of the user dated is the firing suppressed
    without a message and without an error. *)
Theorem recorded_session_does_not_suppress_reminder :
  let completed := at_time (mkdate 2025 2 3) 8 0 in
  let c := ReminderManager.mkclock Scenario.now (fun _ => Some 9) in
  let r := ReminderManager.mkreminders true in
  let u := Scenario.alice in
  let on_sqlite :=
    DataHandler.save_session (Scenario.sqlite_store []) completed u morning [] in
  let on_sqlite_missed := Scenario.sqlite_store [] in
  let legacy := mksession u evening (at_time (mkdate 2024 12 1) 20 0) None [] in
  let on_json :=
    DataHandler.save_session
      (DataHandler.JsonBackend (Json.mkdata [legacy] ∅ ∅ ∅ None))
      completed u morning [] in
  (recorded_today on_sqlite (ReminderManager.now c) u morning /\
   ReminderManager._send_reminder r on_sqlite c u morning
   = [LogError "_send_reminder"]) /\
  (~ recorded_today on_sqlite_missed (ReminderManager.now c) u morning /\
   ReminderManager._send_reminder r on_sqlite_missed c u morning
   = [LogError "_send_reminder"]) /\
  (recorded_today on_json (ReminderManager.now c) u morning /\
   ReminderManager._send_reminder r on_json c u morning
   = [Reminder u morning true false]) /\
  (forall r d c u ty,
      ReminderManager._send_reminder r (DataHandler.SqliteBackend d) c u ty
      = [LogError "_send_reminder"]) /\
  (forall r d c u ty,
      all_dated u (Json.responses d) ->
      recorded_today (DataHandler.JsonBackend d) (ReminderManager.now c) u ty ->
      ReminderManager._send_reminder r (DataHandler.JsonBackend d) c u ty = []).
Proof.
  intros completed c r u on_sqlite on_sqlite_missed legacy on_json.
  assert (Hday : date_of completed = date_of (ReminderManager.now c))
    by (vm_compute; reflexivity).
  split; [split; [apply save_session_recorded_today, Hday|reflexivity]|].
  split.
  { split; [|reflexivity].
    intros (s & Hin & _ & Hd & _). vm_compute in Hin.
    destruct Hin as [<-|[<-|[<-|[]]]]; vm_compute in Hd; discriminate Hd. }
  split; [split; [apply save_session_recorded_today, Hday
                 |vm_compute; reflexivity]|].
  split; [intros; apply sqlite_reminder_always_raises|].
  intros; apply json_recorded_session_suppresses_reminder; assumption.
Qed.

(** ** The daily admin summary *)

(** Goals about the number of events in an explicit trace. *)
Ltac count_lia := unfold count_events; simpl; lia.

Section AdminSummary.

Lemma is_summary_row now n :
  Sqlite.is_summary
    (Sqlite.admin_row_at now Sqlite.daily_summary None n) = true.
Proof. unfold Sqlite.is_summary. apply bool_decide_eq_true_2. reflexivity. Qed.

Lemma flushed_today_same_day h now now' :
  date_of now' = date_of now -> flushed_today h now -> flushed_today h now'.
Proof.
  intros Hday (r & Hin & Hs & Hd). exists r. rewrite Hday. auto.
Qed.

Lemma flushed_not_notified h now :
  flushed_today h now -> AdminNotifier.should_notify_admin_today h now = false.
Proof.
  intros (r & Hin & Hs & Hd). destruct h as [d|d]; [reflexivity|].
  unfold AdminNotifier.should_notify_admin_today. simpl in *.
  rewrite bool_decide_eq_true_2 by reflexivity. simpl.
  apply negb_false_iff. apply existsb_exists. exists r.
  split; [exact Hin|]. rewrite Hs, bool_decide_eq_true_2 by exact Hd.
  reflexivity.
Qed.

Lemma send_daily_when_flushed a h now bot :
  flushed_today h now ->
  AdminNotifier.send_daily_admin_summary a h now bot = (false, h, []).
Proof.
  intros H. unfold AdminNotifier.send_daily_admin_summary.
  rewrite (flushed_not_notified h now H). reflexivity.
Qed.

Lemma add_issue_keeps_flushed h now now' ty u details :
  flushed_today h now ->
  flushed_today (AdminNotifier.add_issue_for_notification h now' ty u details) now.
Proof.
  intros (r & Hin & Hs & Hd). destruct h as [d|d]; [destruct Hin|].
  exists r. split; [|auto]. simpl. apply in_or_app. left. exact Hin.
Qed.

Lemma notify_when_flushed a h now u e mdl bot :
  flushed_today h now ->
  let res := AdminNotifier.notify_llm_failure a h now u e mdl bot in
  res.2 = [] /\ flushed_today res.1 now.
Proof.
  intros H. cbv zeta. unfold AdminNotifier.notify_llm_failure.
  set (h1 := AdminNotifier.add_issue_for_notification _ _ _ _ _).
  assert (H1 : flushed_today h1 now) by apply add_issue_keeps_flushed, H.
  rewrite (flushed_not_notified h1 now H1). auto.
Qed.

(** A summary that goes out is recorded and empties the queue. *)
Lemma send_daily_sent a h now bot :
  let res := AdminNotifier.send_daily_admin_summary a h now bot in
  (0 < count_events is_daily_report res.2)%nat ->
  res.1.1 = true /\
  flushed_today res.1.2 now /\
  Forall (fun r => Sqlite.is_summary r = true) (admin_rows res.1.2).
Proof.
  cbv zeta. unfold AdminNotifier.send_daily_admin_summary.
  destruct (negb _) eqn:Hs; [count_lia|].
  destruct h as [d|d]; [discriminate Hs|]. simpl.
  destruct_list_match; [count_lia|].
  destruct (send_message _ _ _); simpl; [intros _|count_lia].
  split; [reflexivity|]. split.
  - eexists. split; [|split; [apply is_summary_row|reflexivity]].
    apply filter_In. split; [|rewrite is_summary_row; reflexivity].
    apply filter_In. split; [|rewrite is_summary_row; reflexivity].
    apply in_or_app. right. left. reflexivity.
  - apply Forall_forall. intros r Hr. apply list_elem_of_In in Hr.
    apply filter_In in Hr as [_ Hr]. apply negb_true_iff, negb_false_iff in Hr.
    exact Hr.
Qed.

Lemma send_daily_at_most_one a h now bot :
  (count_events is_daily_report
     (AdminNotifier.send_daily_admin_summary a h now bot).2 <= 1)%nat.
Proof.
  unfold AdminNotifier.send_daily_admin_summary.
  destruct (negb _); [count_lia|].
  destruct (DataHandler.get_admin_notifications h now) as [n|];
    [|count_lia].
  destruct (pending_issues n); [count_lia|].
  destruct (send_message _ _ _); [|count_lia].
  destruct (DataHandler.mark_admin_notified_today _ _ _);
    [|count_lia].
  destruct (DataHandler.clear_pending_admin_issues _);
    count_lia.
Qed.

(** The same two facts for a forwarded failure. *)
Lemma notify_sent a h now u e mdl bot :
  let res := AdminNotifier.notify_llm_failure a h now u e mdl bot in
  (count_events is_daily_report res.2 <= 1)%nat /\
  ((0 < count_events is_daily_report res.2)%nat -> flushed_today res.1 now).
Proof.
  cbv zeta. unfold AdminNotifier.notify_llm_failure.
  set (h1 := AdminNotifier.add_issue_for_notification _ _ _ _ _).
  destruct (AdminNotifier.should_notify_admin_today h1 now);
    [|split; count_lia].
  destruct (_ >=? 5); [|split; count_lia].
  pose proof (send_daily_at_most_one a h1 now bot) as Hle.
  pose proof (send_daily_sent a h1 now bot) as Hsent.
  destruct (AdminNotifier.send_daily_admin_summary a h1 now bot) as [[b h2] ev].
  simpl in *. split; [exact Hle|]. intros H. apply Hsent in H. tauto.
Qed.

(** One call of the day: at most one summary, and none once flushed. *)
Lemma admin_step_counts a bot h tr c (day : datetime) :
  date_of (call_time c) = date_of day ->
  let res := admin_step a bot (h, tr) c in
  (count_events is_daily_report res.2
   <= count_events is_daily_report tr + 1)%nat /\
  (flushed_today h day ->
   count_events is_daily_report res.2 = count_events is_daily_report tr /\
   flushed_today res.1 day) /\
  (count_events is_daily_report tr < count_events is_daily_report res.2 ->
   flushed_today res.1 day)%nat /\
  (count_events is_daily_report tr <= count_events is_daily_report res.2)%nat.
Proof.
  intros Hday. destruct c as [when|when u e mdl]; simpl in Hday; cbv zeta;
    unfold admin_step; cbn [fst snd]; rewrite count_events_app.
  - pose proof (send_daily_at_most_one a h when bot) as Hle.
    pose proof (send_daily_sent a h when bot) as Hsent.
    split; [lia|]. split.
    + intros Hf. apply (flushed_today_same_day _ _ when Hday) in Hf.
      rewrite (send_daily_when_flushed a h when bot Hf). simpl.
      split; [count_lia|].
      apply (flushed_today_same_day _ when day); auto.
    + split; [|lia].
      intros Hlt. apply (flushed_today_same_day _ when day); [auto|].
      apply Hsent. lia.
  - destruct (notify_sent a h when u e mdl bot) as [Hle Hsent].
    split; [lia|]. split.
    + intros Hf. apply (flushed_today_same_day _ _ when Hday) in Hf.
      destruct (notify_when_flushed a h when u e mdl bot Hf) as [Hev Hfl].
      rewrite Hev. split; [count_lia|].
      apply (flushed_today_same_day _ when day); auto.
    + split; [|lia].
      intros Hlt. apply (flushed_today_same_day _ when day); [auto|].
      apply Hsent. lia.
Qed.

Lemma run_admin_counts a bot (day : datetime) (calls : list admin_call) :
  forall h tr,
    Forall (fun c => date_of (call_time c) = date_of day) calls ->
    let res := fold_left (admin_step a bot) calls (h, tr) in
    (count_events is_daily_report res.2
     <= count_events is_daily_report tr + 1)%nat /\
    (flushed_today h day ->
     count_events is_daily_report res.2 = count_events is_daily_report tr).
Proof.
  induction calls as [|c calls IH]; intros h tr Hall; cbv zeta;
    [split; [count_lia|reflexivity]|].
  cbn [fold_left]. inversion Hall as [|? ? Hc Hrest]; subst.
  destruct (admin_step_counts a bot h tr c day Hc)
    as (Hle & Hfl & Hnew & Hmono).
  destruct (admin_step a bot (h, tr) c) as [h1 tr1] eqn:E.
  cbn [fst snd] in Hle, Hfl, Hnew, Hmono.
  destruct (IH h1 tr1 Hrest) as [Hle' Hfl'].
  split.
  - destruct (Nat.eq_dec (count_events is_daily_report tr1)
                         (count_events is_daily_report tr)) as [Heq|Hneq].
    + lia.
    + rewrite Hfl' by (apply Hnew; lia). lia.
  - intros Hf. destruct (Hfl Hf) as [Heq Hf1]. rewrite (Hfl' Hf1). exact Heq.
Qed.

(** *** The calls as coroutines *)

(** The run of [send_daily_admin_summary] in which nothing happens while
    the message is being sent is its first half followed by its second. *)
Lemma send_daily_admin_summary_split a h now bot :
  AdminNotifier.send_daily_admin_summary a h now bot
  = match AdminNotifier.send_daily_admin_summary_begin a h now with
    | AdminNotifier.Returned result events => (result, h, events)
    | AdminNotifier.Awaiting message issues =>
        AdminNotifier.send_daily_admin_summary_resume
          a h now bot message issues
    end.
Proof.
  unfold AdminNotifier.send_daily_admin_summary,
    AdminNotifier.send_daily_admin_summary_begin,
    AdminNotifier.send_daily_admin_summary_resume.
  destruct (negb _); [reflexivity|].
  destruct (DataHandler.get_admin_notifications h now) as [n|]; [|reflexivity].
  destruct (pending_issues n); reflexivity.
Qed.

Lemma notify_llm_failure_split a h now u e mdl bot :
  AdminNotifier.notify_llm_failure a h now u e mdl bot
  = let started := AdminNotifier.notify_llm_failure_begin a h now u e mdl in
    match started.2 with
    | AdminNotifier.Returned _ events => (started.1, events)
    | AdminNotifier.Awaiting message issues =>
        let res := AdminNotifier.send_daily_admin_summary_resume
                     a started.1 now bot message issues in
        (res.1.2, res.2)
    end.
Proof.
  cbv zeta.
  unfold AdminNotifier.notify_llm_failure,
    AdminNotifier.notify_llm_failure_begin.
  set (h1 := AdminNotifier.add_issue_for_notification _ _ _ _ _).
  destruct (AdminNotifier.should_notify_admin_today h1 now); [|reflexivity].
  destruct (_ >=? 5); [|reflexivity].
  cbn [fst snd]. rewrite send_daily_admin_summary_split.
  destruct (AdminNotifier.send_daily_admin_summary_begin a h1 now);
    [reflexivity|].
  destruct (AdminNotifier.send_daily_admin_summary_resume _ _ _ _ _ _)
    as [[b h2] ev].
  reflexivity.
Qed.

(** A call that runs to completion is the event loop entering it and, if
    it gets as far as the send, waking it next. *)
Lemma admin_step_is_enter_then_wake a bot h tr c :
  let l := loop_next a bot (loop_next a bot (mkloop h [] tr) (Enter c))
                     (Wake 0 (call_time c)) in
  (loop_store l, loop_trace l) = admin_step a bot (h, tr) c /\
  loop_sending l = [].
Proof.
  cbv zeta. destruct c as [when|when u e mdl]; unfold admin_step;
    cbn [loop_next loop_store call_time fst snd].
  - rewrite send_daily_admin_summary_split.
    destruct (AdminNotifier.send_daily_admin_summary_begin a h when);
      cbn; split; reflexivity.
  - rewrite notify_llm_failure_split. cbv zeta.
    destruct (AdminNotifier.notify_llm_failure_begin a h when u e mdl)
      as [h1 [b ev|msg n]]; cbn; split; reflexivity.
Qed.

(** A call entered once the flush of the day is recorded stops at the
    check. *)
Lemma begin_when_flushed a h now :
  flushed_today h now ->
  AdminNotifier.send_daily_admin_summary_begin a h now
  = AdminNotifier.Returned false [].
Proof.
  intros H. unfold AdminNotifier.send_daily_admin_summary_begin.
  rewrite (flushed_not_notified h now H). reflexivity.
Qed.

(** A send that succeeds is recorded and empties the queue, whatever
    happened to the store while it was in flight. *)
Lemma resume_sent a d now bot msg n :
  send_message bot (AdminNotifier.admin_user_id a) msg = true ->
  let res := AdminNotifier.send_daily_admin_summary_resume
               a (DataHandler.SqliteBackend d) now bot msg n in
  res.1.1 = true /\
  res.2 = [Sent (AdminNotifier.admin_user_id a) msg] /\
  flushed_today res.1.2 now /\
  forall later, AdminNotifier.pending_issues_count res.1.2 later = 0.
Proof.
  intros Hsend. cbv zeta.
  unfold AdminNotifier.send_daily_admin_summary_resume. rewrite Hsend.
  simpl. split; [reflexivity|]. split; [reflexivity|].
  assert (Hall : Forall (fun r => Sqlite.is_summary r = true)
                   (List.filter
                      (fun r => negb (negb (Sqlite.is_summary r)))
                      (Sqlite.admin_notifications
                         (Sqlite.mark_admin_notified_today d now n)))).
  { apply Forall_forall. intros r Hr. apply list_elem_of_In in Hr.
    apply filter_In in Hr as [_ Hr]. apply negb_true_iff, negb_false_iff in Hr.
    exact Hr. }
  split.
  - eexists. split; [|split; [apply is_summary_row|reflexivity]].
    simpl.
    apply filter_In. split; [|rewrite is_summary_row; reflexivity].
    apply filter_In. split; [|rewrite is_summary_row; reflexivity].
    apply in_or_app. right. left. reflexivity.
  - intros later. unfold AdminNotifier.pending_issues_count. simpl.
    match goal with
    | |- context [List.filter ?p (List.filter ?q ?l)] =>
        replace (List.filter p (List.filter q l)) with (@nil Sqlite.admin_row)
    end; [reflexivity|].
    symmetry. simpl in Hall.
    induction Hall as [|r l Hr _ IH]; simpl; [reflexivity|].
    rewrite Hr. simpl. exact IH.
Qed.

End AdminSummary.

(** Over calls of one calendar day that do not overlap, at most one summary
    is sent. *)
Lemma calls_in_turn_flush_at_most_once
      (a : AdminNotifier.t) (bot : Bot) (h : DataHandler.t) (day : datetime)
      (calls : list admin_call) :
  Forall (fun c => date_of (call_time c) = date_of day) calls ->
  (count_events is_daily_report (run_admin a bot h calls).2 <= 1)%nat.
Proof.
  intros Hall. unfold run_admin.
  destruct (run_admin_counts a bot day calls h [] Hall) as [Hle _].
  exact Hle.
Qed.

(** C9.  Once a flush is recorded for today, a call to
    [send_daily_admin_summary] sends nothing, returns [False] and leaves the
    store as it is; and a send that succeeds returns [True], records the
    flush for today and leaves no pending issue.  But the flush is recorded
    only after [await send_message], so a call that starts while another
    one's message is in flight passes the same check: with four issues
    pending, the 10:00 job builds its summary and is suspended in the send;
    a failure forwarded a second later becomes the fifth issue, finds no
    flush recorded and starts a summary of its own; both are delivered, two
    summaries on one calendar day.  The same two calls made in turn send
    one. *)
Theorem overlapping_admin_summaries_are_both_sent :
  let a := AdminNotifier.mknotifier Scenario.admin in
  let bot := Scenario.telegram in
  let day := mkdate 2025 2 3 in
  let second := 1000000 in
  let ten := at_time day 10 0 in
  let issue hh :=
    Sqlite.admin_row_at (at_time day hh 0) (py "llm_failure")
                        (Some Scenario.alice)
                        (py "Model: openai/gpt-5, Error: api_error: unavailable") in
  let h :=
    DataHandler.SqliteBackend
      (Sqlite.mkdb [] ∅ [] [] [issue 1; issue 2; issue 3; issue 4]) in
  let job := DailySummary ten in
  let failure :=
    LlmFailure (ten + second) 8 (py "api_error: unavailable")
               (py "openai/gpt-5") in
  let overlapping :=
    run_loop a bot h [Enter job; Enter failure;
                      Wake 0 (ten + 2 * second); Wake 0 (ten + 3 * second)] in
  let in_turn :=
    run_loop a bot h [Enter job; Wake 0 (ten + 2 * second); Enter failure] in
  (forall a bot h now,
      flushed_today h now ->
      AdminNotifier.send_daily_admin_summary a h now bot = (false, h, []) /\
      AdminNotifier.send_daily_admin_summary_begin a h now
      = AdminNotifier.Returned false []) /\
  (forall a bot d now msg n,
      send_message bot (AdminNotifier.admin_user_id a) msg = true ->
      let res := AdminNotifier.send_daily_admin_summary_resume
                   a (DataHandler.SqliteBackend d) now bot msg n in
      res.1.1 = true /\
      res.2 = [Sent (AdminNotifier.admin_user_id a) msg] /\
      flushed_today res.1.2 now /\
      forall later, AdminNotifier.pending_issues_count res.1.2 later = 0) /\
  List.map daily_report_of (loop_trace overlapping)
  = [Some (Scenario.admin, ten, 4); Some (Scenario.admin, ten + second, 5)] /\
  date_of ten = day /\ date_of (ten + second) = day /\
  count_events is_daily_report (loop_trace overlapping) = 2%nat /\
  loop_sending overlapping = [] /\
  count_events is_daily_report (loop_trace in_turn) = 1%nat.
Proof.
  intros a bot day second ten issue h job failure overlapping in_turn.
  split.
  { intros a' bot' h' now Hf.
    split; [apply send_daily_when_flushed|apply begin_when_flushed]; exact Hf. }
  split; [intros a' bot' d now msg n; apply resume_sent|].
  vm_compute. repeat split; reflexivity.
Qed.

(** ** The scenarios, run *)

(** On the JSON backend a key with two due records is retried twice in one
    sweep, and the terminal notice goes out after each failed retry. *)
Example json_sweep_retries_once_per_due_record :
  let m := Scenario.manager Scenario.unavailable (Some Scenario.telegram) in
  let h := Scenario.json_store [Scenario.failed_on 21; Scenario.failed_on 24] in
  (ReportManager.process_pending_retries m h Scenario.now).2
  = [Generate Scenario.alice Scenario.week true;
     Sent Scenario.alice (MaxRetriesNotice Scenario.week);
     Generate Scenario.alice Scenario.week true;
     Sent Scenario.alice (MaxRetriesNotice Scenario.week)].
Proof. vm_compute. reflexivity. Qed.

(** A retry that succeeds stores the report, clears the ledger and tells
    the user. *)
Example sweep_success_notifies_user :
  let m := Scenario.manager (Scenario.answering Scenario.narrative)
                            (Some Scenario.telegram) in
  let h := Scenario.sqlite_store [Scenario.failed_on 21] in
  let res := ReportManager.process_pending_retries m h Scenario.now in
  res.2 = [Generate Scenario.alice Scenario.week true;
           Sent Scenario.alice (RetrySuccessNotice Scenario.week)] /\
  failures_of res.1 Scenario.alice Scenario.week = [] /\
  (exists r, DataHandler.get_weekly_report res.1 Scenario.alice Scenario.week
             = Some r /\ r_report_content r = Scenario.narrative).
Proof. vm_compute. repeat split. eexists. split; reflexivity. Qed.

(** Five failures forwarded on one day trigger the immediate summary; the
    scheduled summary of that day then sends nothing more. *)
Example burst_flushes_once :
  let a := AdminNotifier.mknotifier Scenario.admin in
  let failure_at hh :=
    LlmFailure (at_time (mkdate 2025 2 3) hh 0) Scenario.alice
               (py "api_error: unavailable") (py "openai/gpt-5") in
  let calls := [failure_at 1; failure_at 2; failure_at 3; failure_at 4;
                failure_at 5; DailySummary (at_time (mkdate 2025 2 3) 10 0);
                failure_at 11] in
  let res := run_admin a Scenario.telegram (Scenario.sqlite_store []) calls in
  count_events is_daily_report res.2 = 1%nat /\
  List.length res.2 = 1%nat /\
  AdminNotifier.pending_issues_count res.1 (at_time (mkdate 2025 2 3) 12 0) = 1.
Proof. vm_compute. auto. Qed.
